(** * treetracker-wallet-api: the Wallet aggregate

    A shallow embedding of [server/models/Wallet.js] and of
    [server/repositories/TrustRepository.js].  Asynchronous methods become
    computations in a state-and-exception monad over the database; every
    [throw] of the source is an explicit [Throw] outcome. *)

From Stdlib Require Import ZArith List String Ascii Bool Lia Permutation.
Import ListNotations.

Open Scope Z_scope.
Open Scope string_scope.

(** ** JavaScript values thrown by the code *)

(** [utils/HttpError]: an error carrying an HTTP status code and a message.
    [ExpectError] is what a failing expect-runtime assertion without an
    error factory throws; it is not an [HttpError].  [OtherError] is any
    other JavaScript error, with its message: what a method that overrides
    one of the class throws, or what knex raises when a query fails. *)
Inductive Exception : Type :=
| HttpError (code : Z) (message : string)
| ExpectError
| OtherError (message : string).

Inductive Outcome (A : Type) : Type :=
| Return (a : A)
| Throw (e : Exception).
Arguments Return {A} a.
Arguments Throw {A} e.

(** [e instanceof HttpError && e.code === c] *)
Definition isHttpErrorWithCode (c : Z) (e : Exception) : bool :=
  match e with
  | HttpError code _ => Z.eqb code c
  | ExpectError => false
  | OtherError _ => false
  end.

(** ** Comparison of nullable columns with JavaScript values ([===]) *)

Definition number_eq (column : option Z) (n : Z) : bool :=
  match column with
  | Some m => Z.eqb m n
  | None => false
  end.

Definition string_eq (column : option string) (s : string) : bool :=
  match column with
  | Some t => String.eqb t s
  | None => false
  end.

(** ** models/TrustRelationship *)

Module TrustRelationship.

(** Modelled from the spec: the enumeration [ENTITY_TRUST_STATE_TYPE] of
    [models/TrustRelationship.js], which is not among the sources.  The
    spec lists the states [requested], [trusted], [canceled_by_target] and
    [cancelled_by_originator]. *)
Inductive ENTITY_TRUST_STATE_TYPE : Type :=
| requested
| trusted
| canceled_by_target
| cancelled_by_originator.

Definition state_eqb (a b : ENTITY_TRUST_STATE_TYPE) : bool :=
  match a, b with
  | requested, requested => true
  | trusted, trusted => true
  | canceled_by_target, canceled_by_target => true
  | cancelled_by_originator, cancelled_by_originator => true
  | _, _ => false
  end.

(** A row of the table [wallets.entity_trust].  The primary key is a
    number; every other column may be NULL, which is why the code checks
    the shape of the rows it reads. *)
Record row : Type := mkRow {
  id : Z;
  actor_entity_id : option Z;
  target_entity_id : option Z;
  type : option string;
  originator_entity_id : option Z;
  request_type : option string;
  state : option ENTITY_TRUST_STATE_TYPE
}.

Definition set_state (s : ENTITY_TRUST_STATE_TYPE) (r : row) : row :=
  mkRow (id r) (actor_entity_id r) (target_entity_id r) (type r)
        (originator_entity_id r) (request_type r) (Some s).

Definition has_state (r : row) (s : ENTITY_TRUST_STATE_TYPE) : bool :=
  match state r with
  | Some s' => state_eqb s' s
  | None => false
  end.

(** The request types are the keys of the object
    [ENTITY_TRUST_REQUEST_TYPE], also declared in the missing file.  The
    object is taken as a parameter wherever it is used: a list of
    properties (key, value) in key order. *)
Definition enumeration : Type := list (string * string).

Definition Object_keys (o : enumeration) : list string := map fst o.

(** [o.key]: [None] is JavaScript's [undefined]. *)
Fixpoint property (o : enumeration) (key : string) : option string :=
  match o with
  | [] => None
  | (k, v) :: o' => if String.eqb k key then Some v else property o' key
  end.

End TrustRelationship.

(** ** models/Transfer *)

Module Transfer.

(** Modelled from the spec: the enumeration [Transfer.STATE] of
    [models/Transfer.js], which is not among the sources.  The spec lists
    the states [pending], [requested], [completed] and [cancelled]. *)
Inductive STATE : Type :=
| pending
| requested
| completed
| cancelled.

Definition state_eqb (a b : STATE) : bool :=
  match a, b with
  | pending, pending => true
  | requested, requested => true
  | completed, completed => true
  | cancelled, cancelled => true
  | _, _ => false
  end.

(** A row of the transfer table: the columns that [Wallet.transfer] writes
    and [Wallet.fulfillTransfer] reads, and the id. *)
Record row : Type := mkRow {
  id : Z;
  originator_entity_id : Z;
  source_entity_id : Z;
  destination_entity_id : Z;
  state : STATE
}.

Definition set_state (s : STATE) (t : row) : row :=
  mkRow (id t) (originator_entity_id t) (source_entity_id t)
        (destination_entity_id t) s.

End Transfer.

(** ** The database *)

(** A row of the wallet table: what [authorize] reads from [toJSON]. *)
Record WalletRecord : Type := mkWalletRecord {
  wallet_id : Z;
  wallet_name : string;
  wallet_password : string;
  wallet_salt : string
}.

Record DB : Type := mkDB {
  wallet_table : list WalletRecord;
  entity_trust : list TrustRelationship.row;
  transfer_table : list Transfer.row
}.

Definition with_entity_trust (db : DB) (t : list TrustRelationship.row) : DB :=
  mkDB (wallet_table db) t (transfer_table db).

Definition with_transfer_table (db : DB) (t : list Transfer.row) : DB :=
  mkDB (wallet_table db) (entity_trust db) t.

(** ** Asynchronous computations: state passing with exceptions *)

Definition M (A : Type) : Type := DB -> DB * Outcome A.

Definition ret {A : Type} (a : A) : M A := fun db => (db, Return a).

Definition throw {A : Type} (e : Exception) : M A := fun db => (db, Throw e).

Definition bind {A B : Type} (m : M A) (k : A -> M B) : M B :=
  fun db =>
    match m db with
    | (db', Return a) => k a db'
    | (db', Throw e) => (db', Throw e)
    end.

(** [try { body } catch (e) { handler e }] *)
Definition try_catch {A : Type} (body : M A) (handler : Exception -> M A) : M A :=
  fun db =>
    match body db with
    | (db', Return a) => (db', Return a)
    | (db', Throw e) => handler e db'
    end.

Definition query {A : Type} (f : DB -> A) : M A := fun db => (db, Return (f db)).

Definition modify (f : DB -> DB) : M unit := fun db => (f db, Return tt).

Declare Scope async_scope.
Delimit Scope async_scope with async.
Notation "x <- m ;; k" := (bind m (fun x => k))
  (at level 100, m at next level, right associativity) : async_scope.
Notation "m ;; k" := (bind m (fun _ => k))
  (at level 100, right associativity) : async_scope.
Open Scope async_scope.

(** [Array.prototype.some] with a callback that may throw: the elements are
    visited in order, the visit stops at the first [true], and an exception
    of the callback leaves the loop. *)
Fixpoint Array_some {A : Type} (callback : A -> M bool) (array : list A) : M bool :=
  match array with
  | [] => ret false
  | x :: rest =>
      b <- callback x ;;
      if b then ret true else Array_some callback rest
  end.

(** ** expect-runtime assertions *)

Module expect.

(** [expect(value, error).oneOf(list)]: [None] is [undefined]. *)
Definition oneOf (value : option string) (candidates : list string)
           (error : Exception) : M unit :=
  match value with
  | Some v =>
      if existsb (String.eqb v) candidates then ret tt else throw error
  | None => throw error
  end.

(** White space of a JavaScript regular expression, among the characters
    below 256. *)
Definition is_space (c : ascii) : bool :=
  let n := nat_of_ascii c in
  (Nat.eqb n 9 || Nat.eqb n 10 || Nat.eqb n 11 || Nat.eqb n 12
   || Nat.eqb n 13 || Nat.eqb n 32 || Nat.eqb n 160)%bool.

Fixpoint test_nonspace (s : string) : bool :=
  match s with
  | EmptyString => false
  | String c s' => negb (is_space c) || test_nonspace s'
  end.

(** [expect(value, error).match(/\S+/)] *)
Definition match_nonspace (value : string) (error : Exception) : M unit :=
  if test_nonspace value then ret tt else throw error.

(** [expect(value).number()] on a nullable numeric column. *)
Definition number (value : option Z) : M unit :=
  match value with
  | Some _ => ret tt
  | None => throw ExpectError
  end.

(** [expect(value).defined()] on a nullable column.  Whether the library
    lets [null] pass is its own business: [null_is_defined] says so. *)
Definition defined {A : Type} (null_is_defined : bool) (value : option A) : M unit :=
  match value with
  | Some _ => ret tt
  | None => if null_is_defined then ret tt else throw ExpectError
  end.

(** [expect(row).match({actor_entity_id: expect.any(Number),
    target_entity_id: expect.any(Number), request_type: expect.any(String)})] *)
Definition match_trust_shape (r : TrustRelationship.row) : M unit :=
  match TrustRelationship.actor_entity_id r,
        TrustRelationship.target_entity_id r,
        TrustRelationship.request_type r with
  | Some _, Some _, Some _ => ret tt
  | _, _, _ => throw ExpectError
  end.

(** [expect.fail()] *)
Definition fail {A : Type} : M A := throw ExpectError.

End expect.

(** ** class Wallet: the instance *)

(** [new Wallet(id)] checks that [id] is a number and stores it in [_id];
    the repositories and the service it creates hold no state of their own. *)
Record Wallet : Type := new_Wallet { _id : Z }.

(** ** repositories/BaseRepository *)

Module BaseRepository.

Fixpoint first_with_id {R : Type} (id_of : R -> Z) (id : Z) (table : list R)
  : option R :=
  match table with
  | [] => None
  | r :: rest => if Z.eqb (id_of r) id then Some r else first_with_id id_of id rest
  end.

(** Modelled from the spec: [getById] of [repositories/BaseRepository.js],
    which is not among the sources.  The spec gives it the contract
    [getById(id) -> record | NotFound]; the text of the message is not
    specified. *)
Definition getById {R : Type} (table : DB -> list R) (id_of : R -> Z) (id : Z)
  : M R :=
  found <- query (fun db => first_with_id id_of id (table db)) ;;
  match found with
  | Some r => ret r
  | None => throw (HttpError 404 "Not found")
  end.

(** Modelled from the spec: the ids that the database assigns on insert,
    the schema being absent from the sources.  The spec says that an id is
    assigned at creation and never reused: the next number after every id
    in use. *)
Definition next_id {R : Type} (id_of : R -> Z) (table : list R) : Z :=
  1 + fold_right Z.max 0 (map id_of table).

(** [knex(table).update(object).where("id", object.id)]: every row with
    the object's id takes the object's columns.  Where the row stands among
    the others in a later select is not fixed by the source, whose selects
    have no [orderBy]; the list keeps it at its place. *)
Definition replace_by_id {R : Type} (id_of : R -> Z) (object : R) (table : list R)
  : list R :=
  map (fun r => if Z.eqb (id_of r) (id_of object) then object else r) table.

End BaseRepository.

(** ** repositories/TrustRepository *)

Module TrustRepository.

Import TrustRelationship.

Definition get : M (list row) := query entity_trust.

Definition getByOriginatorId (id : Z) : M (list row) :=
  query (fun db =>
           filter (fun r => number_eq (originator_entity_id r) id) (entity_trust db)).

Definition getByTargetId (id : Z) : M (list row) :=
  query (fun db =>
           filter (fun r => number_eq (target_entity_id r) id) (entity_trust db)).

Definition getTrustedByOriginatorId (id : Z) : M (list row) :=
  query (fun db =>
           filter (fun r => number_eq (originator_entity_id r) id
                            && has_state r trusted)
                  (entity_trust db)).

(** The object handed to [create]: the columns the caller names. *)
Record object : Type := mkObject {
  o_request_type : option string;
  o_actor_entity_id : option Z;
  o_originator_entity_id : option Z;
  o_target_entity_id : option Z
}.

(** Modelled from the spec: the columns of [wallets.entity_trust] that an
    insert does not name; the schema is not among the sources.  The spec
    gives a new relationship the initial state [requested] and says
    nothing of a value for [type], which stays NULL. *)
Definition inserted_row (new_id : Z) (o : object) : row :=
  mkRow new_id (o_actor_entity_id o) (o_target_entity_id o) None
        (o_originator_entity_id o) (o_request_type o) (Some requested).

Definition insert (o : object) (table : list row) : list row :=
  table ++ [inserted_row (BaseRepository.next_id id table) o].

(** [orderBy("id", "desc").limit(1)] *)
Fixpoint orderBy_id_desc_limit_1 (table : list row) : list row :=
  match table with
  | [] => []
  | r :: rest =>
      match orderBy_id_desc_limit_1 rest with
      | r' :: _ => if Z.ltb (id r) (id r') then [r'] else [r]
      | [] => [r]
      end
  end.

(** [result[0]]: [None] is [undefined]. *)
Definition create (trustObject : object) : M (option row) :=
  modify (fun db => with_entity_trust db (insert trustObject (entity_trust db))) ;;
  result <- query (fun db => orderBy_id_desc_limit_1 (entity_trust db)) ;;
  ret (hd_error result).

Definition update (trustObject : row) : M unit :=
  modify (fun db =>
            with_entity_trust db
              (BaseRepository.replace_by_id id trustObject (entity_trust db))).

(** Inherited from [BaseRepository]. *)
Definition getById (trustRelationshipId : Z) : M row :=
  BaseRepository.getById entity_trust id trustRelationshipId.

End TrustRepository.

(** ** repositories/TransferRepository *)

Module TransferRepository.

Import Transfer.

(** Modelled from the spec: [getById] of
    [repositories/TransferRepository.js], which is not among the sources;
    the spec gives it the contract of [BaseRepository.getById]. *)
Definition getById (transferId : Z) : M row :=
  BaseRepository.getById transfer_table id transferId.

(** The object handed to [create]: a transfer without its id. *)
Record object : Type := mkObject {
  o_originator_entity_id : Z;
  o_source_entity_id : Z;
  o_destination_entity_id : Z;
  o_state : STATE
}.

Definition inserted_row (new_id : Z) (o : object) : row :=
  mkRow new_id (o_originator_entity_id o) (o_source_entity_id o)
        (o_destination_entity_id o) (o_state o).

(** Modelled from the spec: [create] of
    [repositories/TransferRepository.js], which is not among the sources.
    The spec gives it the contract [create(record) -> record-with-id]. *)
Definition create (transferObject : object) : M row :=
  new_row <- query (fun db =>
               inserted_row (BaseRepository.next_id id (transfer_table db))
                            transferObject) ;;
  modify (fun db => with_transfer_table db (transfer_table db ++ [new_row])) ;;
  ret new_row.

(** Modelled from the spec: [update] of
    [repositories/TransferRepository.js], which is not among the sources.
    The spec gives it the contract [update(record)], an update by id that
    replaces the full record, as [TrustRepository.update] does. *)
Definition update (transferObject : row) : M unit :=
  modify (fun db =>
            with_transfer_table db
              (BaseRepository.replace_by_id id transferObject (transfer_table db))).

End TransferRepository.

(** ** repositories/WalletRepository and services/WalletService *)

Module WalletRepository.

(** Modelled from the spec: [getById] of
    [repositories/WalletRepository.js], which is not among the sources.
    The spec gives it the contract [getById(id) -> WalletRecord | NotFound]. *)
Definition getById (id : Z) : M WalletRecord :=
  BaseRepository.getById wallet_table wallet_id id.

End WalletRepository.

Module WalletService.

Fixpoint first_with_name (name : string) (table : list WalletRecord)
  : option WalletRecord :=
  match table with
  | [] => None
  | w :: rest =>
      if String.eqb (wallet_name w) name then Some w else first_with_name name rest
  end.

(** Modelled from the spec: [getByName] of [services/WalletService.js],
    which is not among the sources.  The spec says that it resolves the
    wallet by name and fails with NotFound if none exists. *)
Definition getByName (name : string) : M Wallet :=
  found <- query (fun db => first_with_name name (wallet_table db)) ;;
  match found with
  | Some w => ret (new_Wallet (wallet_id w))
  | None => throw (HttpError 404 "Not found")
  end.

End WalletService.

(** ** models/Wallet *)

(** A JavaScript object whose properties hold numbers, as a property list. *)
Definition JsObject : Type := list (string * Z).

Module Wallet.

Definition getId (this : Wallet) : Z := _id this.

Section Methods.

(** [TrustRelationship.ENTITY_TRUST_REQUEST_TYPE], declared in a file
    that is not among the sources. *)
Variable ENTITY_TRUST_REQUEST_TYPE : TrustRelationship.enumeration.

(** Node's [Crypto.createHmac('sha512', key).update(data).digest('hex')]. *)
Variable createHmac_sha512_hex : string -> string -> string.

(** Whether expect-runtime's [defined()] lets [null] pass. *)
Variable null_is_defined : bool.

(** [Wallet.sha512] *)
Definition sha512 (password salt : string) : string :=
  createHmac_sha512_hex salt password.

Definition toJSON (this : Wallet) : M WalletRecord :=
  WalletRepository.getById (_id this).

(** [password] is [None] when the caller passes [undefined] or [null];
    [!password] also holds of the empty string. *)
Definition authorize (this : Wallet) (password : option string) : M JsObject :=
  match password with
  | None | Some EmptyString =>
      throw (HttpError 400 "Error: Invalid credential format")
  | Some pwd =>
      walletObject <- toJSON this ;;
      let hash := sha512 pwd (wallet_salt walletObject) in
      if negb (String.eqb hash (wallet_password walletObject)) then
        throw (HttpError 401 "Invalid credentials")
      else
        ret [("id", wallet_id walletObject)]
  end.

Definition getTrustRelationshipsRequested (this : Wallet)
  : M (list TrustRelationship.row) :=
  TrustRepository.getByOriginatorId (_id this).

Definition getTrustRelationshipsTargeted (this : Wallet)
  : M (list TrustRelationship.row) :=
  TrustRepository.getByTargetId (_id this).

Definition getTrustRelationshipsTrusted (this : Wallet)
  : M (list TrustRelationship.row) :=
  TrustRepository.getTrustedByOriginatorId (_id this).

(** The body is [//pass]. *)
Definition checkTrustRequestSentToMe (this : Wallet) (requestType : string)
           (sourceWalletId : option Z) : M unit :=
  ret tt.

Definition requestTrustFromAWallet (this : Wallet)
           (requestType targetWalletName : string)
  : M (option TrustRelationship.row) :=
  expect.oneOf (Some requestType)
    (TrustRelationship.Object_keys ENTITY_TRUST_REQUEST_TYPE)
    (HttpError 400
       ("The trust request type must be one of "
        ++ String.concat ","
             (TrustRelationship.Object_keys ENTITY_TRUST_REQUEST_TYPE))) ;;
  expect.match_nonspace targetWalletName (HttpError 400 "Invalid wallet name") ;;
  targetWallet <- WalletService.getByName targetWalletName ;;
  trustRelationships <- getTrustRelationshipsRequested this ;;
  existed <- Array_some
    (fun trustRelationship =>
       expect.defined null_is_defined (TrustRelationship.type trustRelationship) ;;
       expect.number (TrustRelationship.target_entity_id trustRelationship) ;;
       ret (string_eq (TrustRelationship.type trustRelationship) requestType
            && number_eq (TrustRelationship.target_entity_id trustRelationship)
                         (getId targetWallet)))
    trustRelationships ;;
  if existed then
    throw (HttpError 403 "The trust requested has existed")
  else
    (* [this.id] is not a property of the class: the argument is undefined *)
    checkTrustRequestSentToMe targetWallet requestType None ;;
    result <- TrustRepository.create
      (TrustRepository.mkObject (Some requestType) (Some (_id this))
                                (Some (_id this)) (Some (getId targetWallet))) ;;
    ret result.

(** [trustRelationships.reduce((a, c) => c.id === id ? c : a, undefined)];
    [expect(c.id).number()] holds of every row, the primary key being a
    number. *)
Definition reduce_by_id (trustRelationshipId : Z)
           (trustRelationships : list TrustRelationship.row)
  : option TrustRelationship.row :=
  fold_left
    (fun a c =>
       if Z.eqb (TrustRelationship.id c) trustRelationshipId then Some c else a)
    trustRelationships None.

Definition acceptTrustRequestSentToMe (this : Wallet) (trustRelationshipId : Z)
  : M unit :=
  trustRelationships <- getTrustRelationshipsTargeted this ;;
  match reduce_by_id trustRelationshipId trustRelationships with
  | None =>
      throw (HttpError 403 "Have no permission to accept this relationship")
  | Some trustRelationship =>
      TrustRepository.update
        (TrustRelationship.set_state TrustRelationship.trusted trustRelationship)
  end.

Definition declineTrustRequestSentToMe (this : Wallet) (trustRelationshipId : Z)
  : M unit :=
  trustRelationships <- getTrustRelationshipsTargeted this ;;
  match reduce_by_id trustRelationshipId trustRelationships with
  | None =>
      throw (HttpError 403 "Have no permission to decline this relationship")
  | Some trustRelationship =>
      TrustRepository.update
        (TrustRelationship.set_state TrustRelationship.canceled_by_target
                                     trustRelationship)
  end.

Definition cancelTrustRequestSentToMe (this : Wallet) (trustRelationshipId : Z)
  : M unit :=
  trustRelationship <- TrustRepository.getById trustRelationshipId ;;
  if negb (number_eq (TrustRelationship.originator_entity_id trustRelationship)
                     (_id this)) then
    throw (HttpError 403 "Have no permission to cancel this relationship")
  else
    TrustRepository.update
      (TrustRelationship.set_state TrustRelationship.cancelled_by_originator
                                   trustRelationship).

(** [column === trustType], where [trustType] may be [undefined]. *)
Definition string_eq_value (column trustType : option string) : bool :=
  match trustType with
  | Some s => string_eq column s
  | None => false
  end.

(** [sourceWallet] and [targetWallet] are instances of [Wallet] by
    their type. *)
Definition checkTrust (this : Wallet) (trustType : option string)
           (sourceWallet targetWallet : Wallet) : M unit :=
  expect.oneOf trustType
    (TrustRelationship.Object_keys ENTITY_TRUST_REQUEST_TYPE) ExpectError ;;
  trustRelationships <- getTrustRelationshipsTrusted this ;;
  passed <- Array_some
    (fun trustRelationship =>
       expect.match_trust_shape trustRelationship ;;
       if number_eq (TrustRelationship.actor_entity_id trustRelationship)
                    (getId sourceWallet)
          && number_eq (TrustRelationship.target_entity_id trustRelationship)
                       (getId targetWallet)
          && string_eq_value (TrustRelationship.request_type trustRelationship)
                             trustType
       then ret true
       else ret false)
    trustRelationships ;;
  if passed then
    ret tt
  else
    throw (HttpError 403 "Have no permission to do this action").

Definition hasControlOver (this : Wallet) (wallet : Wallet) : M bool :=
  if Z.eqb (getId wallet) (_id this) then ret true else ret false.

(** The body of [transfer].  [this.checkTrust] is the method that the
    object has when the call is made: it is the parameter [checkTrust], of
    which the handler knows nothing but the error it throws. *)
Definition transfer_with {Tokens : Type}
           (checkTrust : option string -> Wallet -> Wallet -> M unit)
           (this : Wallet) (sender receiver : Wallet) (tokens : Tokens) : M unit :=
  try_catch
    (checkTrust
       (TrustRelationship.property ENTITY_TRUST_REQUEST_TYPE "send")
       sender receiver)
    (fun e =>
       if isHttpErrorWithCode 403 e then
         senderControlled <- hasControlOver this sender ;;
         if senderControlled then
           TransferRepository.create
             (TransferRepository.mkObject (_id this) (getId sender)
                                          (getId receiver) Transfer.pending) ;;
           throw (HttpError 202 "No trust, saved")
         else
           receiverControlled <- hasControlOver this receiver ;;
           if receiverControlled then
             TransferRepository.create
               (TransferRepository.mkObject (_id this) (getId sender)
                                            (getId receiver) Transfer.requested) ;;
             throw (HttpError 202 "No trust, saved")
           else
             expect.fail
       else
         throw e).

(** [transfer] on an instance of the class, whose [checkTrust] is the one
    above. *)
Definition transfer {Tokens : Type} (this : Wallet) (sender receiver : Wallet)
           (tokens : Tokens) : M unit :=
  transfer_with (checkTrust this) this sender receiver tokens.

Definition acceptTransfer (this : Wallet) (transferId : Z) : M unit :=
  transfer <- TransferRepository.getById transferId ;;
  TransferRepository.update (Transfer.set_state Transfer.completed transfer).

Definition declineTransfer (this : Wallet) (transferId : Z) : M unit :=
  transfer <- TransferRepository.getById transferId ;;
  TransferRepository.update (Transfer.set_state Transfer.cancelled transfer).

Definition cancelTransfer (this : Wallet) (transferId : Z) : M unit :=
  transfer <- TransferRepository.getById transferId ;;
  TransferRepository.update (Transfer.set_state Transfer.cancelled transfer).

Definition fulfillTransfer (this : Wallet) (transferId : Z) : M unit :=
  transfer <- TransferRepository.getById transferId ;;
  if negb (Z.eqb (Transfer.source_entity_id transfer) (_id this)) then
    throw (HttpError 403 "Have no permission to do this operation")
  else if negb (Transfer.state_eqb (Transfer.state transfer) Transfer.requested) then
    throw (HttpError 403 "Operation forbidden, the transfer state is wrong")
  else
    TransferRepository.update (Transfer.set_state Transfer.completed transfer).

End Methods.

End Wallet.

(** ** utils: the express error handler *)

Inductive ResponseBody : Type :=
| JsonError (code : Z) (message : string)
| Text (content : string).

Record Response : Type := mkResponse { status : Z; body : ResponseBody }.

(** [errorHandler]: an [HttpError] is answered with its own code; an error
    of another class that is not a validation error with status 500. *)
Definition errorHandler (err : Exception) : Response :=
  match err with
  | HttpError code message => mkResponse code (JsonError code message)
  | ExpectError => mkResponse 500 (Text "Unknown error")
  | OtherError _ => mkResponse 500 (Text "Unknown error")
  end.

(** ** Vocabulary of the specification *)

(** The acting wallet [self] holds a trusted relationship for the actor
    [source], the target [target] and the request type [requestType]. *)
Definition trusted_relationship_exists (db : DB) (self source target : Z)
           (requestType : string) : Prop :=
  exists r,
    In r (entity_trust db)
    /\ TrustRelationship.originator_entity_id r = Some self
    /\ TrustRelationship.state r = Some TrustRelationship.trusted
    /\ TrustRelationship.actor_entity_id r = Some source
    /\ TrustRelationship.target_entity_id r = Some target
    /\ TrustRelationship.request_type r = Some requestType.

(** A relationship record as the data model has it: actor, target and
    request type are present. *)
Definition well_shaped (r : TrustRelationship.row) : Prop :=
  TrustRelationship.actor_entity_id r <> None
  /\ TrustRelationship.target_entity_id r <> None
  /\ TrustRelationship.request_type r <> None.

(** The trusted relationships of [self], the rows [checkTrust] reads, are
    well shaped. *)
Definition trusted_rows_well_shaped (db : DB) (self : Z) : Prop :=
  forall r,
    In r (entity_trust db) ->
    TrustRelationship.originator_entity_id r = Some self ->
    TrustRelationship.state r = Some TrustRelationship.trusted ->
    well_shaped r.

(** Primary keys are unique. *)
Definition trust_ids_unique (db : DB) : Prop :=
  NoDup (map TrustRelationship.id (entity_trust db)).

Definition transfer_ids_unique (db : DB) : Prop :=
  NoDup (map Transfer.id (transfer_table db)).

Definition wallet_ids_unique (db : DB) : Prop :=
  NoDup (map wallet_id (wallet_table db)).

(** A terminal state of a trust relationship. *)
Definition terminal (s : TrustRelationship.ENTITY_TRUST_STATE_TYPE) : Prop :=
  s = TrustRelationship.trusted
  \/ s = TrustRelationship.canceled_by_target
  \/ s = TrustRelationship.cancelled_by_originator.

(** HTTP status 403. *)
Definition Forbidden (message : string) : Exception := HttpError 403 message.

Definition is_Forbidden {A : Type} (o : Outcome A) : Prop :=
  exists message, o = Throw (Forbidden message).

(** What [TransferRepository.update] leaves behind when the transfer [t]
    takes the state [s]. *)
Definition transfer_moved (db : DB) (t : Transfer.row) (s : Transfer.STATE) : DB :=
  with_transfer_table db
    (BaseRepository.replace_by_id Transfer.id (Transfer.set_state s t) (transfer_table db)).

(** What [TrustRepository.update] leaves behind when the relationship [r]
    takes the state [s]. *)
Definition relationship_moved (db : DB) (r : TrustRelationship.row)
           (s : TrustRelationship.ENTITY_TRUST_STATE_TYPE) : DB :=
  with_entity_trust db
    (BaseRepository.replace_by_id TrustRelationship.id
       (TrustRelationship.set_state s r) (entity_trust db)).

(** The state of the transfer stored under [id], if there is one. *)
Definition transfer_state (db : DB) (id : Z) : option Transfer.STATE :=
  option_map Transfer.state
    (BaseRepository.first_with_id Transfer.id id (transfer_table db)).

(** The state of the relationship stored under [id]. *)
Definition relationship_state (db : DB) (id : Z)
  : option TrustRelationship.ENTITY_TRUST_STATE_TYPE :=
  match BaseRepository.first_with_id TrustRelationship.id id (entity_trust db) with
  | Some r => TrustRelationship.state r
  | None => None
  end.

(** The comparison that [checkTrust] makes on a row. *)
Definition grants (source target : Z) (requestType : string)
           (r : TrustRelationship.row) : bool :=
  number_eq (TrustRelationship.actor_entity_id r) source
  && number_eq (TrustRelationship.target_entity_id r) target
  && string_eq (TrustRelationship.request_type r) requestType.

(** The invariant of the data model, as the specification words it: no
    operation moves a relationship out of a terminal state. *)
Definition terminal_states_are_final : Prop :=
  forall (this : Wallet) (i : Z) (operation : M unit) (db : DB) s,
    In operation [Wallet.acceptTrustRequestSentToMe this i;
                  Wallet.declineTrustRequestSentToMe this i;
                  Wallet.cancelTrustRequestSentToMe this i] ->
    relationship_state db i = Some s ->
    terminal s ->
    relationship_state (fst (operation db)) i = Some s.

(** A second accept of a relationship that is already trusted is rejected. *)
Definition second_accept_is_rejected : Prop :=
  forall (this : Wallet) (i : Z) (db : DB),
    relationship_state db i = Some TrustRelationship.trusted ->
    exists e, snd (Wallet.acceptTrustRequestSentToMe this i db) = Throw e.

(** The other error kinds of the specification, by HTTP status. *)
Definition InvalidInput (message : string) : Exception := HttpError 400 message.
Definition Unauthorized (message : string) : Exception := HttpError 401 message.
Definition NotFound (message : string) : Exception := HttpError 404 message.

(** [Array_some] for a callback that does not touch the database. *)
Fixpoint Array_some_outcome {A : Type} (callback : A -> Outcome bool) (array : list A)
  : Outcome bool :=
  match array with
  | [] => Return false
  | x :: rest =>
      match callback x with
      | Return true => Return true
      | Return false => Array_some_outcome callback rest
      | Throw e => Throw e
      end
  end.

(** What the callback of the duplicate scan of [requestTrustFromAWallet]
    yields on a row. *)
Definition already_requested (null_is_defined : bool) (requestType : string)
           (target : Z) (r : TrustRelationship.row) : Outcome bool :=
  match TrustRelationship.type r, null_is_defined with
  | None, false => Throw ExpectError
  | _, _ =>
      match TrustRelationship.target_entity_id r with
      | None => Throw ExpectError
      | Some _ =>
          Return (string_eq (TrustRelationship.type r) requestType
                  && number_eq (TrustRelationship.target_entity_id r) target)
      end
  end.

(** The object that [requestTrustFromAWallet] hands to [create]. *)
Definition requested_object (this : Wallet) (requestType : string) (target : Wallet)
  : TrustRepository.object :=
  TrustRepository.mkObject (Some requestType) (Some (_id this)) (Some (_id this))
                           (Some (Wallet.getId target)).

(** ** Sample data *)

Module Sample.

Definition request_types : TrustRelationship.enumeration :=
  [("send", "send"); ("receive", "receive")].

(** A stand-in for the keyed hash: any function will do. *)
Definition hmac (key data : string) : string := key ++ "/" ++ data.

Definition alice : WalletRecord := mkWalletRecord 1 "alice" "s1/secret" "s1".
Definition bob : WalletRecord := mkWalletRecord 2 "bob" "s2/hunter2" "s2".
Definition carol : WalletRecord := mkWalletRecord 3 "carol" "s3/pass" "s3".

Definition wallet1 : Wallet := new_Wallet 1.
Definition wallet2 : Wallet := new_Wallet 2.
Definition wallet3 : Wallet := new_Wallet 3.

(** No relationship, no transfer. *)
Definition empty : DB := mkDB [alice; bob; carol] [] [].

Definition relationship (s : TrustRelationship.ENTITY_TRUST_STATE_TYPE)
  : TrustRelationship.row :=
  TrustRelationship.mkRow 1 (Some 1) (Some 2) None (Some 1) (Some "send") (Some s).

(** Wallet 1 asked wallet 2 for the right to send; the request is in
    state [s]. *)
Definition with_relationship (s : TrustRelationship.ENTITY_TRUST_STATE_TYPE) : DB :=
  mkDB [alice; bob; carol] [relationship s] [].

(** A trusted relationship of wallet 1 whose actor column is NULL. *)
Definition ill_shaped : DB :=
  mkDB [alice; bob; carol]
       [TrustRelationship.mkRow 1 None (Some 2) None (Some 1) (Some "send")
                                (Some TrustRelationship.trusted)]
       [].

Definition a_transfer (s : Transfer.STATE) : Transfer.row :=
  Transfer.mkRow 1 3 1 3 s.

(** Wallet 3 recorded a transfer from wallet 1 to itself, in state [s]. *)
Definition with_transfer (s : Transfer.STATE) : DB :=
  mkDB [alice; bob; carol] [] [a_transfer s].

End Sample.

(** ** Histories of calls *)

(** The row [r] grants [self] the trust that [checkTrust] looks for. *)
Definition grants_trust (self source target : Z) (requestType : string)
           (r : TrustRelationship.row) : Prop :=
  TrustRelationship.originator_entity_id r = Some self
  /\ TrustRelationship.state r = Some TrustRelationship.trusted
  /\ TrustRelationship.actor_entity_id r = Some source
  /\ TrustRelationship.target_entity_id r = Some target
  /\ TrustRelationship.request_type r = Some requestType.

(** A relationship without its state: the columns that accept, decline and
    cancel do not write. *)
Definition forget_state (r : TrustRelationship.row) : TrustRelationship.row :=
  TrustRelationship.mkRow
    (TrustRelationship.id r) (TrustRelationship.actor_entity_id r)
    (TrustRelationship.target_entity_id r) (TrustRelationship.type r)
    (TrustRelationship.originator_entity_id r) (TrustRelationship.request_type r)
    None.

(** A transfer without its state. *)
Definition forget_transfer_state (t : Transfer.row) : Transfer.row :=
  Transfer.set_state Transfer.pending t.

(** Every relationship in the table has its actor, target and request
    type. *)
Definition all_well_shaped (db : DB) : Prop :=
  forall r, In r (entity_trust db) -> well_shaped r.

(** A call of a method of [Wallet] that may write to the database. *)
Inductive Call : Type :=
| CallRequestTrust (this : Wallet) (requestType targetWalletName : string)
| CallAcceptTrust (this : Wallet) (trustRelationshipId : Z)
| CallDeclineTrust (this : Wallet) (trustRelationshipId : Z)
| CallCancelTrust (this : Wallet) (trustRelationshipId : Z)
| CallTransfer (this sender receiver : Wallet)
| CallAcceptTransfer (this : Wallet) (transferId : Z)
| CallDeclineTransfer (this : Wallet) (transferId : Z)
| CallCancelTransfer (this : Wallet) (transferId : Z)
| CallFulfillTransfer (this : Wallet) (transferId : Z).

(** The database that a call leaves behind, whether it returns or throws. *)
Definition perform (types : TrustRelationship.enumeration) (null_is_defined : bool)
           (call : Call) (db : DB) : DB :=
  match call with
  | CallRequestTrust this requestType targetWalletName =>
      fst (Wallet.requestTrustFromAWallet types null_is_defined this requestType
                                          targetWalletName db)
  | CallAcceptTrust this i => fst (Wallet.acceptTrustRequestSentToMe this i db)
  | CallDeclineTrust this i => fst (Wallet.declineTrustRequestSentToMe this i db)
  | CallCancelTrust this i => fst (Wallet.cancelTrustRequestSentToMe this i db)
  | CallTransfer this sender receiver =>
      fst (Wallet.transfer types this sender receiver tt db)
  | CallAcceptTransfer this i => fst (Wallet.acceptTransfer this i db)
  | CallDeclineTransfer this i => fst (Wallet.declineTransfer this i db)
  | CallCancelTransfer this i => fst (Wallet.cancelTransfer this i db)
  | CallFulfillTransfer this i => fst (Wallet.fulfillTransfer this i db)
  end.

(** The calls of a history, one after the other. *)
Definition perform_all (types : TrustRelationship.enumeration) (null_is_defined : bool)
           (calls : list Call) (db : DB) : DB :=
  fold_left (fun d call => perform types null_is_defined call d) calls db.

(** What the calls keep: unique ids in both tables and well-shaped
    relationships. *)
Definition consistent (db : DB) : Prop :=
  trust_ids_unique db /\ transfer_ids_unique db /\ all_well_shaped db.

(** The row that the fallback of [transfer] records, and the database
    with it. *)
Definition recorded_transfer (this sender receiver : Wallet) (s : Transfer.STATE)
           (db : DB) : Transfer.row :=
  Transfer.mkRow (BaseRepository.next_id Transfer.id (transfer_table db))
                 (_id this) (Wallet.getId sender) (Wallet.getId receiver) s.

Definition with_recorded_transfer (this sender receiver : Wallet) (s : Transfer.STATE)
           (db : DB) : DB :=
  with_transfer_table db
    (transfer_table db ++ [recorded_transfer this sender receiver s db]).

(** What the callback of the scan of [checkTrust] yields on a row. *)
Definition checked (source target : Z) (requestType : string)
           (r : TrustRelationship.row) : Outcome bool :=
  match TrustRelationship.actor_entity_id r,
        TrustRelationship.target_entity_id r,
        TrustRelationship.request_type r with
  | Some _, Some _, Some _ => Return (grants source target requestType r)
  | _, _, _ => Throw ExpectError
  end.

(** The rows that [getTrustRelationshipsTrusted] returns. *)
Definition trusted_rows (db : DB) (self : Z) : list TrustRelationship.row :=
  filter (fun r => number_eq (TrustRelationship.originator_entity_id r) self
                   && TrustRelationship.has_state r TrustRelationship.trusted)
         (entity_trust db).

(** ** Further sample data *)

Module Scenario.

(** Wallet 1 holds a trusted relationship towards wallet 2 and a second
    one, still requested, towards wallet 3. *)
Definition two_relationships : DB :=
  mkDB [Sample.alice; Sample.bob; Sample.carol]
       [TrustRelationship.mkRow 1 (Some 1) (Some 2) None (Some 1) (Some "send")
                                (Some TrustRelationship.trusted);
        TrustRelationship.mkRow 2 (Some 1) (Some 3) None (Some 1) (Some "send")
                                (Some TrustRelationship.requested)]
       [].

(** A relationship recorded with its [type]: wallet 1 asked wallet 2. *)
Definition typed_relationship : DB :=
  mkDB [Sample.alice; Sample.bob; Sample.carol]
       [TrustRelationship.mkRow 1 (Some 1) (Some 2) (Some "send") (Some 1)
                                (Some "send") (Some TrustRelationship.requested)]
       [].

(** A trusted relationship of wallet 1 towards wallet 2, followed by one
    whose actor is NULL. *)
Definition match_then_ill_shaped : DB :=
  mkDB [Sample.alice; Sample.bob; Sample.carol]
       [TrustRelationship.mkRow 1 (Some 1) (Some 2) None (Some 1) (Some "send")
                                (Some TrustRelationship.trusted);
        TrustRelationship.mkRow 2 None (Some 2) None (Some 1) (Some "send")
                                (Some TrustRelationship.trusted)]
       [].

(** The same two rows, the ill-shaped one first. *)
Definition ill_shaped_then_match : DB :=
  mkDB [Sample.alice; Sample.bob; Sample.carol]
       [TrustRelationship.mkRow 2 None (Some 2) None (Some 1) (Some "send")
                                (Some TrustRelationship.trusted);
        TrustRelationship.mkRow 1 (Some 1) (Some 2) None (Some 1) (Some "send")
                                (Some TrustRelationship.trusted)]
       [].

End Scenario.

(** * Properties *)

(** ** Comparisons *)

Lemma number_eq_true (column : option Z) (n : Z) :
  number_eq column n = true <-> column = Some n.
Proof.
  destruct column as [m|]; simpl.
  - rewrite Z.eqb_eq. split; [intros ->; reflexivity | intros [= ->]; reflexivity].
  - split; discriminate.
Qed.

Lemma string_eq_true (column : option string) (s : string) :
  string_eq column s = true <-> column = Some s.
Proof.
  destruct column as [t|]; simpl.
  - rewrite String.eqb_eq. split; [intros ->; reflexivity | intros [= ->]; reflexivity].
  - split; discriminate.
Qed.

Lemma trust_state_eqb_true (a b : TrustRelationship.ENTITY_TRUST_STATE_TYPE) :
  TrustRelationship.state_eqb a b = true <-> a = b.
Proof. destruct a, b; simpl; split; congruence. Qed.

Lemma has_state_true (r : TrustRelationship.row) s :
  TrustRelationship.has_state r s = true <-> TrustRelationship.state r = Some s.
Proof.
  unfold TrustRelationship.has_state.
  destruct (TrustRelationship.state r) as [s'|].
  - rewrite trust_state_eqb_true. split; [intros ->; reflexivity | intros [= ->]; reflexivity].
  - split; discriminate.
Qed.

Lemma transfer_state_eqb_true (a b : Transfer.STATE) :
  Transfer.state_eqb a b = true <-> a = b.
Proof. destruct a, b; simpl; split; congruence. Qed.

Lemma oneOf_member (v : string) (candidates : list string) (error : Exception) (db : DB) :
  In v candidates -> expect.oneOf (Some v) candidates error db = (db, Return tt).
Proof.
  intros Hin. unfold expect.oneOf.
  assert (existsb (String.eqb v) candidates = true) as ->; [|reflexivity].
  apply existsb_exists. exists v. split; [assumption | apply String.eqb_refl].
Qed.

(** ** Tables addressed by their primary key *)

Section ById.

Context {R : Type} (id_of : R -> Z).

Lemma first_with_id_unique (table : list R) (r : R) :
  NoDup (map id_of table) -> In r table ->
  BaseRepository.first_with_id id_of (id_of r) table = Some r.
Proof.
  induction table as [|x rest IH]; simpl; [contradiction|].
  intros Hnd [->|Hin].
  - rewrite Z.eqb_refl. reflexivity.
  - inversion Hnd as [|? ? Hx Hrest]; subst.
    destruct (Z.eqb_spec (id_of x) (id_of r)) as [E|E].
    + exfalso. apply Hx. rewrite E. apply in_map. assumption.
    + apply IH; assumption.
Qed.

Lemma replace_by_id_ids (object : R) (table : list R) :
  map id_of (BaseRepository.replace_by_id id_of object table) = map id_of table.
Proof.
  unfold BaseRepository.replace_by_id. rewrite map_map.
  apply map_ext. intros r.
  destruct (Z.eqb_spec (id_of r) (id_of object)); congruence.
Qed.

(** After an update the row stored under the object's id is the object. *)
Lemma first_with_id_replaced (object r : R) (table : list R) :
  In r table -> id_of r = id_of object ->
  BaseRepository.first_with_id id_of (id_of object)
    (BaseRepository.replace_by_id id_of object table) = Some object.
Proof.
  induction table as [|x rest IH]; simpl; [contradiction|].
  intros Hin E.
  destruct (Z.eqb_spec (id_of x) (id_of object)) as [Ex|Ex].
  - rewrite Z.eqb_refl. reflexivity.
  - destruct Hin as [->|Hin]; [contradiction|].
    apply Z.eqb_neq in Ex. rewrite Ex. apply IH; assumption.
Qed.

Lemma next_id_above (table : list R) (r : R) :
  In r table -> id_of r < BaseRepository.next_id id_of table.
Proof.
  unfold BaseRepository.next_id.
  induction table as [|x rest IH]; cbn [map fold_right In]; [contradiction|].
  intros [->|Hin]; [lia|]. specialize (IH Hin). lia.
Qed.

Lemma next_id_fresh (table : list R) :
  ~ In (BaseRepository.next_id id_of table) (map id_of table).
Proof.
  intros Hin. apply in_map_iff in Hin. destruct Hin as [r [E Hr]].
  pose proof (next_id_above table r Hr). lia.
Qed.

Lemma getById_found (tbl : DB -> list R) (db : DB) (r : R) :
  NoDup (map id_of (tbl db)) -> In r (tbl db) ->
  BaseRepository.getById tbl id_of (id_of r) db = (db, Return r).
Proof.
  intros Hnd Hin. unfold BaseRepository.getById, bind, query.
  rewrite (first_with_id_unique _ _ Hnd Hin). reflexivity.
Qed.

End ById.

(** ** The transfer lifecycle *)

Lemma TransferRepository_getById_found (db : DB) (t : Transfer.row) :
  transfer_ids_unique db -> In t (transfer_table db) ->
  TransferRepository.getById (Transfer.id t) db = (db, Return t).
Proof. intros Hnd Hin. apply (getById_found Transfer.id transfer_table); assumption. Qed.

Lemma transfer_moved_stored (db : DB) (t : Transfer.row) (s : Transfer.STATE) :
  In t (transfer_table db) ->
  BaseRepository.first_with_id Transfer.id (Transfer.id t)
    (transfer_table (transfer_moved db t s)) = Some (Transfer.set_state s t).
Proof.
  intros Hin. unfold transfer_moved. simpl.
  apply (first_with_id_replaced Transfer.id (Transfer.set_state s t) t); auto.
Qed.

Lemma move_transfer (db : DB) (t : Transfer.row) (k : Transfer.row -> M unit) :
  transfer_ids_unique db -> In t (transfer_table db) ->
  bind (TransferRepository.getById (Transfer.id t)) k db = k t db.
Proof.
  intros Hnd Hin. unfold bind.
  rewrite (TransferRepository_getById_found db t Hnd Hin). reflexivity.
Qed.

Lemma transfer_moved_state (db : DB) (t : Transfer.row) (s : Transfer.STATE) :
  In t (transfer_table db) ->
  transfer_state (transfer_moved db t s) (Transfer.id t) = Some s.
Proof.
  intros Hin. unfold transfer_state.
  rewrite (transfer_moved_stored db t s Hin). reflexivity.
Qed.

Lemma sample_transfer_ids_unique (s : Transfer.STATE) :
  transfer_ids_unique (Sample.with_transfer s).
Proof.
  unfold transfer_ids_unique. simpl. constructor; [intros [] | constructor].
Qed.

Lemma sample_transfer_stored (s : Transfer.STATE) :
  In (Sample.a_transfer s) (transfer_table (Sample.with_transfer s)).
Proof. simpl. left. reflexivity. Qed.

(** C4: [fulfillTransfer] fails with Forbidden when the caller is not the
    source of the transfer, fails with Forbidden when the state of the
    transfer is not [requested], also for the source, and otherwise moves the
    transfer to [completed]. *)
Theorem fulfillTransfer_guards (this : Wallet) (db : DB) (t : Transfer.row) :
  transfer_ids_unique db ->
  In t (transfer_table db) ->
  (Transfer.source_entity_id t <> _id this ->
   Wallet.fulfillTransfer this (Transfer.id t) db
   = (db, Throw (Forbidden "Have no permission to do this operation")))
  /\ (Transfer.state t <> Transfer.requested ->
      fst (Wallet.fulfillTransfer this (Transfer.id t) db) = db
      /\ is_Forbidden (snd (Wallet.fulfillTransfer this (Transfer.id t) db)))
  /\ (Transfer.source_entity_id t = _id this ->
      Transfer.state t <> Transfer.requested ->
      Wallet.fulfillTransfer this (Transfer.id t) db
      = (db, Throw (Forbidden "Operation forbidden, the transfer state is wrong")))
  /\ (Transfer.source_entity_id t = _id this ->
      Transfer.state t = Transfer.requested ->
      Wallet.fulfillTransfer this (Transfer.id t) db
      = (transfer_moved db t Transfer.completed, Return tt)
      /\ transfer_state (transfer_moved db t Transfer.completed) (Transfer.id t)
         = Some Transfer.completed).
Proof.
  intros Hnd Hin.
  assert (Hrun : Wallet.fulfillTransfer this (Transfer.id t) db
                 = if negb (Z.eqb (Transfer.source_entity_id t) (_id this)) then
                     (db, Throw (Forbidden "Have no permission to do this operation"))
                   else if negb (Transfer.state_eqb (Transfer.state t) Transfer.requested) then
                     (db, Throw (Forbidden "Operation forbidden, the transfer state is wrong"))
                   else (transfer_moved db t Transfer.completed, Return tt)).
  { unfold Wallet.fulfillTransfer.
    rewrite (move_transfer db t _ Hnd Hin).
    destruct (negb (Z.eqb (Transfer.source_entity_id t) (_id this))); [reflexivity|].
    destruct (negb (Transfer.state_eqb (Transfer.state t) Transfer.requested)); reflexivity. }
  assert (Hstate : Transfer.state t <> Transfer.requested ->
                   Transfer.state_eqb (Transfer.state t) Transfer.requested = false).
  { intros Hs. destruct (Transfer.state_eqb (Transfer.state t) Transfer.requested) eqn:E;
      [apply transfer_state_eqb_true in E; contradiction | reflexivity]. }
  split; [|split; [|split]].
  - intros Hsrc. rewrite Hrun. apply Z.eqb_neq in Hsrc. rewrite Hsrc. reflexivity.
  - intros Hs. rewrite Hrun.
    destruct (negb (Z.eqb (Transfer.source_entity_id t) (_id this)));
      [split; [reflexivity | eexists; reflexivity]|].
    rewrite (Hstate Hs). split; [reflexivity | eexists; reflexivity].
  - intros Hsrc Hs. rewrite Hrun, Hsrc, Z.eqb_refl, (Hstate Hs). reflexivity.
  - intros Hsrc Hs. split.
    + rewrite Hrun, Hsrc, Z.eqb_refl, Hs. reflexivity.
    + apply transfer_moved_state. assumption.
Qed.

Lemma fulfillTransfer_guards_witness :
  Wallet.fulfillTransfer Sample.wallet1 1 (Sample.with_transfer Transfer.requested)
  = (Sample.with_transfer Transfer.completed, Return tt)
  /\ Wallet.fulfillTransfer Sample.wallet2 1 (Sample.with_transfer Transfer.requested)
     = (Sample.with_transfer Transfer.requested,
        Throw (Forbidden "Have no permission to do this operation"))
  /\ Wallet.fulfillTransfer Sample.wallet1 1 (Sample.with_transfer Transfer.pending)
     = (Sample.with_transfer Transfer.pending,
        Throw (Forbidden "Operation forbidden, the transfer state is wrong")).
Proof.
  split; [|split].
  - destruct (fulfillTransfer_guards Sample.wallet1 _ _
                (sample_transfer_ids_unique Transfer.requested)
                (sample_transfer_stored Transfer.requested))
      as (_ & _ & _ & Hok).
    destruct (Hok eq_refl eq_refl) as [Hrun _]. exact Hrun.
  - destruct (fulfillTransfer_guards Sample.wallet2 _ _
                (sample_transfer_ids_unique Transfer.requested)
                (sample_transfer_stored Transfer.requested))
      as (Hsrc & _).
    apply Hsrc. simpl. lia.
  - destruct (fulfillTransfer_guards Sample.wallet1 _ _
                (sample_transfer_ids_unique Transfer.pending)
                (sample_transfer_stored Transfer.pending))
      as (_ & _ & Hstate & _).
    apply Hstate; [reflexivity | discriminate].
Defined.

(** C10: [acceptTransfer], [declineTransfer] and [cancelTransfer] check
    neither the caller nor the state of the transfer: whoever calls, and
    whatever the state, also a terminal one, the first moves the transfer to
    [completed] and the other two to [cancelled]; a cancelled transfer can be
    completed and a completed one cancelled. *)
Theorem transfer_resolution_unguarded (this : Wallet) (db : DB) (t : Transfer.row) :
  transfer_ids_unique db ->
  In t (transfer_table db) ->
  (Wallet.acceptTransfer this (Transfer.id t) db
   = (transfer_moved db t Transfer.completed, Return tt)
   /\ transfer_state (transfer_moved db t Transfer.completed) (Transfer.id t)
      = Some Transfer.completed)
  /\ (Wallet.declineTransfer this (Transfer.id t) db
      = (transfer_moved db t Transfer.cancelled, Return tt)
      /\ Wallet.cancelTransfer this (Transfer.id t) db
         = (transfer_moved db t Transfer.cancelled, Return tt)
      /\ transfer_state (transfer_moved db t Transfer.cancelled) (Transfer.id t)
         = Some Transfer.cancelled).
Proof.
  intros Hnd Hin.
  unfold Wallet.acceptTransfer, Wallet.declineTransfer, Wallet.cancelTransfer.
  rewrite !(move_transfer db t _ Hnd Hin).
  repeat split; apply transfer_moved_state; assumption.
Qed.

Lemma transfer_resolution_unguarded_witness :
  (* a stranger completes a cancelled transfer *)
  (transfer_state (Sample.with_transfer Transfer.cancelled) 1 = Some Transfer.cancelled
   /\ Wallet.acceptTransfer Sample.wallet2 1 (Sample.with_transfer Transfer.cancelled)
      = (Sample.with_transfer Transfer.completed, Return tt))
  (* and cancels a completed one *)
  /\ (transfer_state (Sample.with_transfer Transfer.completed) 1 = Some Transfer.completed
      /\ Wallet.declineTransfer Sample.wallet2 1 (Sample.with_transfer Transfer.completed)
         = (Sample.with_transfer Transfer.cancelled, Return tt)
      /\ Wallet.cancelTransfer Sample.wallet2 1 (Sample.with_transfer Transfer.completed)
         = (Sample.with_transfer Transfer.cancelled, Return tt)).
Proof.
  split.
  - split; [reflexivity|].
    exact (proj1 (proj1 (transfer_resolution_unguarded Sample.wallet2 _ _
                           (sample_transfer_ids_unique Transfer.cancelled)
                           (sample_transfer_stored Transfer.cancelled)))).
  - destruct (transfer_resolution_unguarded Sample.wallet2 _ _
                (sample_transfer_ids_unique Transfer.completed)
                (sample_transfer_stored Transfer.completed))
      as (_ & Hdecline & Hcancel & _).
    split; [reflexivity|]. split; [exact Hdecline | exact Hcancel].
Defined.

(** ** Scans *)

Lemma Array_some_pure {A : Type} (callback : A -> M bool) (p : A -> bool)
      (array : list A) (db : DB) :
  (forall x, In x array -> callback x db = (db, Return (p x))) ->
  Array_some callback array db = (db, Return (existsb p array)).
Proof.
  induction array as [|x rest IH]; intros H; simpl; [reflexivity|].
  unfold bind. rewrite (H x (or_introl eq_refl)).
  destruct (p x); simpl; [reflexivity|].
  apply IH. intros y Hy. apply H. right. assumption.
Qed.

Lemma Array_some_reads_only {A : Type} (callback : A -> M bool) (array : list A) :
  (forall x db, fst (callback x db) = db) ->
  forall db, fst (Array_some callback array db) = db.
Proof.
  intros H. induction array as [|x rest IH]; intros db; simpl; [reflexivity|].
  unfold bind. specialize (H x db).
  destruct (callback x db) as [db' [b|e]]; simpl in H; subst db'.
  - destruct b; [reflexivity | apply IH].
  - reflexivity.
Qed.

(** ** The trust check *)

Lemma match_trust_shape_ok (r : TrustRelationship.row) (db : DB) :
  well_shaped r -> expect.match_trust_shape r db = (db, Return tt).
Proof.
  intros (Ha & Ht & Hr). unfold expect.match_trust_shape.
  destruct (TrustRelationship.actor_entity_id r); [|contradiction].
  destruct (TrustRelationship.target_entity_id r); [|contradiction].
  destruct (TrustRelationship.request_type r); [reflexivity|contradiction].
Qed.

Lemma trusted_rows_spec (db : DB) (self : Z) (r : TrustRelationship.row) :
  In r (filter (fun r => number_eq (TrustRelationship.originator_entity_id r) self
                         && TrustRelationship.has_state r TrustRelationship.trusted)
               (entity_trust db))
  <-> In r (entity_trust db)
      /\ TrustRelationship.originator_entity_id r = Some self
      /\ TrustRelationship.state r = Some TrustRelationship.trusted.
Proof.
  rewrite filter_In, andb_true_iff, number_eq_true, has_state_true. tauto.
Qed.

Lemma grants_exists (db : DB) (self source target : Z) (requestType : string) :
  existsb (grants source target requestType)
          (filter (fun r => number_eq (TrustRelationship.originator_entity_id r) self
                            && TrustRelationship.has_state r TrustRelationship.trusted)
                  (entity_trust db)) = true
  <-> trusted_relationship_exists db self source target requestType.
Proof.
  rewrite existsb_exists. unfold trusted_relationship_exists, grants.
  split.
  - intros [r [Hin Hg]]. apply trusted_rows_spec in Hin.
    rewrite !andb_true_iff, !number_eq_true, string_eq_true in Hg.
    exists r. tauto.
  - intros [r H]. exists r.
    rewrite trusted_rows_spec, !andb_true_iff, !number_eq_true, string_eq_true. tauto.
Qed.

Section TrustCheck.

Variable types : TrustRelationship.enumeration.

Lemma checkTrust_reads_only (this : Wallet) (trustType : option string)
      (source target : Wallet) (db : DB) :
  fst (Wallet.checkTrust types this trustType source target db) = db.
Proof.
  unfold Wallet.checkTrust, bind.
  destruct (expect.oneOf trustType _ ExpectError db) as [db0 [[]|e]] eqn:E1.
  - assert (db0 = db) as ->.
    { unfold expect.oneOf in E1. destruct trustType as [v|]; [|discriminate].
      destruct (existsb _ _); inversion E1; reflexivity. }
    unfold Wallet.getTrustRelationshipsTrusted,
      TrustRepository.getTrustedByOriginatorId, query.
    match goal with
    | |- fst (match Array_some ?cb ?l db with _ => _ end) = _ =>
        pose proof (Array_some_reads_only cb l) as Hs
    end.
    match type of Hs with
    | ?P -> _ => assert (Hcb : P)
    end.
    { intros r d. unfold bind, expect.match_trust_shape.
      destruct (TrustRelationship.actor_entity_id r) as [a|]; [|reflexivity].
      destruct (TrustRelationship.target_entity_id r) as [t|]; [|reflexivity].
      destruct (TrustRelationship.request_type r) as [q|]; [|reflexivity].
      simpl. match goal with |- fst ((if ?c then _ else _) d) = d => destruct c end;
        reflexivity. }
    specialize (Hs Hcb db).
    match goal with
    | |- fst (match ?scan with _ => _ end) = _ => destruct scan as [d [[]|e]]
    end; simpl in Hs |- *; subst; reflexivity.
  - unfold expect.oneOf in E1. destruct trustType as [v|].
    + destruct (existsb _ _); inversion E1; reflexivity.
    + inversion E1; reflexivity.
Qed.

(** What [checkTrust] computes on well-shaped rows. *)
Lemma checkTrust_run (this : Wallet) (requestType : string)
      (source target : Wallet) (db : DB) :
  In requestType (TrustRelationship.Object_keys types) ->
  trusted_rows_well_shaped db (_id this) ->
  Wallet.checkTrust types this (Some requestType) source target db
  = (db,
     if existsb (grants (Wallet.getId source) (Wallet.getId target) requestType)
                (filter (fun r =>
                           number_eq (TrustRelationship.originator_entity_id r) (_id this)
                           && TrustRelationship.has_state r TrustRelationship.trusted)
                        (entity_trust db))
     then Return tt
     else Throw (Forbidden "Have no permission to do this action")).
Proof.
  intros Hkey Hshape. unfold Wallet.checkTrust.
  unfold bind at 1. rewrite (oneOf_member _ _ _ _ Hkey).
  unfold bind at 1. unfold Wallet.getTrustRelationshipsTrusted,
    TrustRepository.getTrustedByOriginatorId, query.
  unfold bind at 1.
  rewrite (Array_some_pure _ (grants (Wallet.getId source) (Wallet.getId target)
                                     requestType)).
  - destruct (existsb _ _); reflexivity.
  - intros r Hr. apply trusted_rows_spec in Hr. destruct Hr as (Hin & Ho & Hs).
    unfold bind. rewrite (match_trust_shape_ok r db (Hshape r Hin Ho Hs)).
    unfold grants, Wallet.string_eq_value.
    match goal with |- (if ?c then _ else _) db = _ => destruct c end; reflexivity.
Qed.

End TrustCheck.

(** C2: [checkTrust] succeeds exactly when the acting wallet holds a trusted
    relationship of its own (originator the acting wallet, state [trusted])
    whose actor, target and request type are the ones asked for; in every
    other case it fails with Forbidden.  The request type is one of the
    enumeration and the rows read are records of the data model. *)
Theorem checkTrust_iff_trusted_relationship
        (types : TrustRelationship.enumeration) (this : Wallet)
        (requestType : string) (source target : Wallet) (db : DB) :
  In requestType (TrustRelationship.Object_keys types) ->
  trusted_rows_well_shaped db (_id this) ->
  (Wallet.checkTrust types this (Some requestType) source target db = (db, Return tt)
   <-> trusted_relationship_exists db (_id this) (Wallet.getId source)
                                   (Wallet.getId target) requestType)
  /\ (~ trusted_relationship_exists db (_id this) (Wallet.getId source)
                                    (Wallet.getId target) requestType ->
      Wallet.checkTrust types this (Some requestType) source target db
      = (db, Throw (Forbidden "Have no permission to do this action"))).
Proof.
  intros Hkey Hshape.
  rewrite (checkTrust_run types this requestType source target db Hkey Hshape).
  pose proof (grants_exists db (_id this) (Wallet.getId source) (Wallet.getId target)
                            requestType) as Hex.
  destruct (existsb _ _).
  - split; [|intros Hno; exfalso; apply Hno; apply Hex; reflexivity].
    split; [intros _; apply Hex; reflexivity | reflexivity].
  - split; [|reflexivity].
    split; [discriminate | intros H; apply Hex in H; discriminate].
Qed.

(** ** The trust-gated transfer *)

Lemma not_Forbidden_code (e : Exception) :
  (forall message, e <> Forbidden message) -> isHttpErrorWithCode 403 e = false.
Proof.
  intros H. destruct e as [code message| |other]; simpl; [|reflexivity|reflexivity].
  destruct (Z.eqb_spec code 403) as [->|]; [|reflexivity].
  exfalso. apply (H message). reflexivity.
Qed.

(** C1: when the trust check of the acting wallet for (send, sender,
    receiver) fails with Forbidden and the sender is the acting wallet
    itself, [transfer] adds exactly one row to the transfer table, with the
    acting wallet as originator, the sender as source, the receiver as
    destination and the state [pending], and ends with the HTTP error 202,
    which the error handler answers with status 202. *)
Theorem transfer_pending_when_sender_controlled
        (types : TrustRelationship.enumeration) {Tokens : Type}
        (this sender receiver : Wallet) (tokens : Tokens) (db : DB) (message : string) :
  snd (Wallet.checkTrust types this (TrustRelationship.property types "send")
                         sender receiver db)
  = Throw (Forbidden message) ->
  Wallet.getId sender = _id this ->
  exists created,
    Wallet.transfer types this sender receiver tokens db
    = (with_transfer_table db (transfer_table db ++ [created]),
       Throw (HttpError 202 "No trust, saved"))
    /\ Transfer.originator_entity_id created = _id this
    /\ Transfer.source_entity_id created = Wallet.getId sender
    /\ Transfer.destination_entity_id created = Wallet.getId receiver
    /\ Transfer.state created = Transfer.pending
    /\ ~ In (Transfer.id created) (map Transfer.id (transfer_table db))
    /\ status (errorHandler (HttpError 202 "No trust, saved")) = 202.
Proof.
  intros Hcheck Hcontrol.
  exists (Transfer.mkRow (BaseRepository.next_id Transfer.id (transfer_table db))
                         (_id this) (Wallet.getId sender) (Wallet.getId receiver)
                         Transfer.pending).
  repeat split; try reflexivity.
  - unfold Wallet.transfer, Wallet.transfer_with, try_catch.
    pose proof (checkTrust_reads_only types this
                  (TrustRelationship.property types "send") sender receiver db) as Hro.
    destruct (Wallet.checkTrust types this _ sender receiver db) as [db' o].
    simpl in Hro, Hcheck. subst db' o. simpl.
    unfold bind, Wallet.hasControlOver. rewrite Hcontrol, Z.eqb_refl. reflexivity.
  - apply next_id_fresh.
Qed.

(** C8: whatever the trust check of the wallet throws, [transfer] rethrows
    it as it is, in the database that the check has left, unless it is a
    Forbidden error: an [HttpError] of another status, an assertion failure
    and any other error reach the caller unchanged.  A Forbidden error, and
    no other, is caught and replaced by the fallback that goes by the
    control of the acting wallet; a check that returns lets [transfer]
    return.  With the [checkTrust] of the class, [transfer] ends as the check
    does whenever the check does not end with Forbidden. *)
Theorem transfer_rethrows_other_errors
        (types : TrustRelationship.enumeration) {Tokens : Type}
        (this sender receiver : Wallet) (tokens : Tokens) (db : DB) :
  (forall (checkTrust : option string -> Wallet -> Wallet -> M unit) db' e,
      checkTrust (TrustRelationship.property types "send") sender receiver db
      = (db', Throw e) ->
      (forall message, e <> Forbidden message) ->
      Wallet.transfer_with types checkTrust this sender receiver tokens db
      = (db', Throw e))
  /\ (forall (checkTrust : option string -> Wallet -> Wallet -> M unit) db' message,
         checkTrust (TrustRelationship.property types "send") sender receiver db
         = (db', Throw (Forbidden message)) ->
         Wallet.transfer_with types checkTrust this sender receiver tokens db
         = if Z.eqb (Wallet.getId sender) (_id this) then
             (with_recorded_transfer this sender receiver Transfer.pending db',
              Throw (HttpError 202 "No trust, saved"))
           else if Z.eqb (Wallet.getId receiver) (_id this) then
             (with_recorded_transfer this sender receiver Transfer.requested db',
              Throw (HttpError 202 "No trust, saved"))
           else (db', Throw ExpectError))
  /\ (forall (checkTrust : option string -> Wallet -> Wallet -> M unit) db',
         checkTrust (TrustRelationship.property types "send") sender receiver db
         = (db', Return tt) ->
         Wallet.transfer_with types checkTrust this sender receiver tokens db
         = (db', Return tt))
  /\ (forall e,
         snd (Wallet.checkTrust types this (TrustRelationship.property types "send")
                                sender receiver db) = Throw e ->
         (forall message, e <> Forbidden message) ->
         Wallet.transfer types this sender receiver tokens db = (db, Throw e))
  /\ (~ is_Forbidden
        (snd (Wallet.checkTrust types this (TrustRelationship.property types "send")
                                sender receiver db)) ->
      Wallet.transfer types this sender receiver tokens db
      = Wallet.checkTrust types this (TrustRelationship.property types "send")
                          sender receiver db).
Proof.
  split; [|split; [|split]].
  - intros checkTrust db' e Hcheck Hne.
    unfold Wallet.transfer_with, try_catch. rewrite Hcheck.
    rewrite (not_Forbidden_code e Hne). reflexivity.
  - intros checkTrust db' message Hcheck.
    unfold Wallet.transfer_with, try_catch. rewrite Hcheck. simpl.
    unfold bind, Wallet.hasControlOver.
    destruct (Z.eqb (Wallet.getId sender) (_id this)); [reflexivity|].
    destruct (Z.eqb (Wallet.getId receiver) (_id this)); reflexivity.
  - intros checkTrust db' Hcheck.
    unfold Wallet.transfer_with, try_catch. rewrite Hcheck. reflexivity.
  - pose proof (checkTrust_reads_only types this
                  (TrustRelationship.property types "send") sender receiver db) as Hro.
    unfold Wallet.transfer, Wallet.transfer_with, try_catch.
    destruct (Wallet.checkTrust types this _ sender receiver db) as [db' o].
    simpl in Hro. subst db'. simpl. split.
    + intros e -> Hne. rewrite (not_Forbidden_code e Hne). reflexivity.
    + intros Hnf. destruct o as [[]|e]; [reflexivity|].
      rewrite not_Forbidden_code; [reflexivity|].
      intros message ->. apply Hnf. exists message. reflexivity.
Qed.

Lemma transfer_pending_when_sender_controlled_witness :
  exists created,
    Wallet.transfer Sample.request_types Sample.wallet1 Sample.wallet1 Sample.wallet3 tt
                    Sample.empty
    = (mkDB [Sample.alice; Sample.bob; Sample.carol] [] [created],
       Throw (HttpError 202 "No trust, saved"))
    /\ Transfer.originator_entity_id created = 1
    /\ Transfer.source_entity_id created = 1
    /\ Transfer.destination_entity_id created = 3
    /\ Transfer.state created = Transfer.pending.
Proof.
  destruct (transfer_pending_when_sender_controlled
              Sample.request_types Sample.wallet1 Sample.wallet1 Sample.wallet3 tt
              Sample.empty "Have no permission to do this action"
              eq_refl eq_refl)
    as (created & Hrun & Ho & Hs & Hd & Hst & _ & _).
  exists created. repeat split; assumption.
Defined.

Lemma transfer_rethrows_other_errors_witness :
  (* an error of a failing query is rethrown as it is *)
  Wallet.transfer_with Sample.request_types
    (fun _ _ _ => throw (OtherError "connection refused"))
    Sample.wallet1 Sample.wallet1 Sample.wallet2 tt Sample.empty
  = (Sample.empty, Throw (OtherError "connection refused"))
  (* and so is an HTTP error of another status *)
  /\ Wallet.transfer_with Sample.request_types
       (fun _ _ _ => throw (HttpError 404 "Not found"))
       Sample.wallet1 Sample.wallet1 Sample.wallet2 tt Sample.empty
     = (Sample.empty, Throw (HttpError 404 "Not found"))
  (* a Forbidden error is caught *)
  /\ Wallet.transfer_with Sample.request_types
       (fun _ _ _ => throw (Forbidden "no"))
       Sample.wallet1 Sample.wallet1 Sample.wallet2 tt Sample.empty
     = (with_recorded_transfer Sample.wallet1 Sample.wallet1 Sample.wallet2
                               Transfer.pending Sample.empty,
        Throw (HttpError 202 "No trust, saved"))
  (* the assertion failure of the check of the class *)
  /\ Wallet.transfer Sample.request_types Sample.wallet1 Sample.wallet1 Sample.wallet2 tt
                     Sample.ill_shaped
     = (Sample.ill_shaped, Throw ExpectError).
Proof.
  destruct (transfer_rethrows_other_errors
              Sample.request_types Sample.wallet1 Sample.wallet1 Sample.wallet2 tt
              Sample.empty)
    as (Hother & Hforbidden & _ & _ & _).
  split; [|split; [|split]].
  - apply Hother; [reflexivity | intros message; discriminate].
  - apply Hother; [reflexivity | intros message H; discriminate H].
  - apply (Hforbidden (fun _ _ _ => throw (Forbidden "no")) Sample.empty "no").
    reflexivity.
  - destruct (transfer_rethrows_other_errors
                Sample.request_types Sample.wallet1 Sample.wallet1 Sample.wallet2 tt
                Sample.ill_shaped)
      as (_ & _ & _ & Hclass & _).
    apply Hclass; [reflexivity | intros message; discriminate].
Defined.

Lemma checkTrust_iff_trusted_relationship_witness :
  Wallet.checkTrust Sample.request_types Sample.wallet1 (Some "send")
                    Sample.wallet1 Sample.wallet2
                    (Sample.with_relationship TrustRelationship.trusted)
  = (Sample.with_relationship TrustRelationship.trusted, Return tt)
  /\ Wallet.checkTrust Sample.request_types Sample.wallet1 (Some "send")
                       Sample.wallet1 Sample.wallet3
                       (Sample.with_relationship TrustRelationship.trusted)
     = (Sample.with_relationship TrustRelationship.trusted,
        Throw (Forbidden "Have no permission to do this action")).
Proof.
  assert (Hkey : In "send" (TrustRelationship.Object_keys Sample.request_types)).
  { simpl. left. reflexivity. }
  assert (Hshape : trusted_rows_well_shaped
                     (Sample.with_relationship TrustRelationship.trusted) 1).
  { intros r [<-|[]] _ _. repeat split; discriminate. }
  split.
  - apply (proj1 (checkTrust_iff_trusted_relationship
                    Sample.request_types Sample.wallet1 "send"
                    Sample.wallet1 Sample.wallet2 _ Hkey Hshape)).
    exists (Sample.relationship TrustRelationship.trusted).
    simpl. repeat split; try reflexivity. left. reflexivity.
  - apply (proj2 (checkTrust_iff_trusted_relationship
                    Sample.request_types Sample.wallet1 "send"
                    Sample.wallet1 Sample.wallet3 _ Hkey Hshape)).
    intros (r & [<-|[]] & _ & _ & _ & Ht & _). discriminate.
Defined.

(** ** The trust lifecycle *)

Lemma reduce_by_id_cons (i : Z) (x : TrustRelationship.row)
      (rest : list TrustRelationship.row) :
  Wallet.reduce_by_id i (x :: rest)
  = match Wallet.reduce_by_id i rest with
    | Some r => Some r
    | None => if Z.eqb (TrustRelationship.id x) i then Some x else None
    end.
Proof.
  unfold Wallet.reduce_by_id. simpl.
  generalize (if Z.eqb (TrustRelationship.id x) i then Some x else None) as a.
  induction rest as [|y rest IH]; intros a; simpl; [reflexivity|].
  rewrite IH. rewrite (IH (if Z.eqb (TrustRelationship.id y) i then Some y else None)).
  destruct (fold_left _ rest None); [reflexivity|].
  destruct (Z.eqb (TrustRelationship.id y) i); reflexivity.
Qed.

Lemma reduce_by_id_absent (i : Z) (rows : list TrustRelationship.row) :
  (forall r, In r rows -> TrustRelationship.id r <> i) ->
  Wallet.reduce_by_id i rows = None.
Proof.
  induction rows as [|x rest IH]; intros H; [reflexivity|].
  rewrite reduce_by_id_cons, IH.
  - assert (Hx : TrustRelationship.id x <> i) by (apply H; left; reflexivity).
    apply Z.eqb_neq in Hx. rewrite Hx. reflexivity.
  - intros r Hr. apply H. right. assumption.
Qed.

Lemma reduce_by_id_found (rows : list TrustRelationship.row) (r : TrustRelationship.row) :
  NoDup (map TrustRelationship.id rows) -> In r rows ->
  Wallet.reduce_by_id (TrustRelationship.id r) rows = Some r.
Proof.
  induction rows as [|x rest IH]; intros Hnd Hin; [contradiction|].
  inversion Hnd as [|? ? Hx Hrest]; subst.
  rewrite reduce_by_id_cons. destruct Hin as [->|Hin].
  - rewrite reduce_by_id_absent, Z.eqb_refl; [reflexivity|].
    intros r' Hr' E. apply Hx. rewrite <- E. apply in_map. assumption.
  - rewrite (IH Hrest Hin). reflexivity.
Qed.

(** A selection of rows keeps the primary keys unique. *)
Lemma selection_ids_unique (keep : TrustRelationship.row -> bool)
      (rows : list TrustRelationship.row) :
  NoDup (map TrustRelationship.id rows) ->
  NoDup (map TrustRelationship.id (filter keep rows)).
Proof.
  induction rows as [|x rest IH]; simpl; intros Hnd; [constructor|].
  inversion Hnd as [|? ? Hx Hrest]; subst.
  destruct (keep x); simpl; [|auto].
  constructor; [|auto].
  intros Hin. apply Hx. apply in_map_iff in Hin. destruct Hin as [y [E Hy]].
  apply filter_In in Hy. rewrite <- E. apply in_map. tauto.
Qed.

(** The relationship that accept and decline find among those targeted at
    the caller. *)
Lemma targeted_found (this : Wallet) (db : DB) (r : TrustRelationship.row) :
  trust_ids_unique db -> In r (entity_trust db) ->
  TrustRelationship.target_entity_id r = Some (_id this) ->
  Wallet.reduce_by_id (TrustRelationship.id r)
    (filter (fun r => number_eq (TrustRelationship.target_entity_id r) (_id this))
            (entity_trust db)) = Some r.
Proof.
  intros Hnd Hin Ht. apply reduce_by_id_found.
  - apply selection_ids_unique. exact Hnd.
  - apply filter_In. split; [assumption|]. apply number_eq_true. assumption.
Qed.

Lemma targeted_absent (this : Wallet) (db : DB) (i : Z) :
  (forall r, In r (entity_trust db) -> TrustRelationship.id r = i ->
             TrustRelationship.target_entity_id r <> Some (_id this)) ->
  Wallet.reduce_by_id i
    (filter (fun r => number_eq (TrustRelationship.target_entity_id r) (_id this))
            (entity_trust db)) = None.
Proof.
  intros H. apply reduce_by_id_absent. intros r Hr E.
  apply filter_In in Hr. destruct Hr as [Hin Ht].
  apply number_eq_true in Ht. exact (H r Hin E Ht).
Qed.

Lemma TrustRepository_getById_found (db : DB) (r : TrustRelationship.row) :
  trust_ids_unique db -> In r (entity_trust db) ->
  TrustRepository.getById (TrustRelationship.id r) db = (db, Return r).
Proof. intros Hnd Hin. apply (getById_found TrustRelationship.id entity_trust); assumption. Qed.

Lemma relationship_moved_state (db : DB) (r : TrustRelationship.row)
      (s : TrustRelationship.ENTITY_TRUST_STATE_TYPE) :
  In r (entity_trust db) ->
  relationship_state (relationship_moved db r s) (TrustRelationship.id r) = Some s.
Proof.
  intros Hin. unfold relationship_state, relationship_moved. simpl.
  rewrite (first_with_id_replaced TrustRelationship.id
             (TrustRelationship.set_state s r) r); auto.
Qed.

Lemma sample_trust_ids_unique (s : TrustRelationship.ENTITY_TRUST_STATE_TYPE) :
  trust_ids_unique (Sample.with_relationship s).
Proof.
  unfold trust_ids_unique. simpl. constructor; [intros [] | constructor].
Qed.

(** C7: accept and decline fail with Forbidden for an id under which no
    relationship is targeted at the caller, and cancel fails with Forbidden
    for a relationship whose originator is not the caller; the database is
    left as it was. *)
Theorem trust_operations_forbidden_to_others (this : Wallet) (db : DB) :
  (forall i,
      (forall r, In r (entity_trust db) -> TrustRelationship.id r = i ->
                 TrustRelationship.target_entity_id r <> Some (_id this)) ->
      Wallet.acceptTrustRequestSentToMe this i db
      = (db, Throw (Forbidden "Have no permission to accept this relationship"))
      /\ Wallet.declineTrustRequestSentToMe this i db
         = (db, Throw (Forbidden "Have no permission to decline this relationship")))
  /\ (forall r,
         trust_ids_unique db -> In r (entity_trust db) ->
         TrustRelationship.originator_entity_id r <> Some (_id this) ->
         Wallet.cancelTrustRequestSentToMe this (TrustRelationship.id r) db
         = (db, Throw (Forbidden "Have no permission to cancel this relationship"))).
Proof.
  split.
  - intros i H.
    unfold Wallet.acceptTrustRequestSentToMe, Wallet.declineTrustRequestSentToMe,
      Wallet.getTrustRelationshipsTargeted, TrustRepository.getByTargetId, bind, query.
    rewrite (targeted_absent this db i H). split; reflexivity.
  - intros r Hnd Hin Ho.
    unfold Wallet.cancelTrustRequestSentToMe, bind.
    rewrite (TrustRepository_getById_found db r Hnd Hin).
    destruct (number_eq (TrustRelationship.originator_entity_id r) (_id this)) eqn:E.
    + apply number_eq_true in E. contradiction.
    + reflexivity.
Qed.

Lemma trust_operations_forbidden_to_others_witness :
  Wallet.acceptTrustRequestSentToMe Sample.wallet3 1
    (Sample.with_relationship TrustRelationship.requested)
  = (Sample.with_relationship TrustRelationship.requested,
     Throw (Forbidden "Have no permission to accept this relationship"))
  /\ Wallet.declineTrustRequestSentToMe Sample.wallet3 1
       (Sample.with_relationship TrustRelationship.requested)
     = (Sample.with_relationship TrustRelationship.requested,
        Throw (Forbidden "Have no permission to decline this relationship"))
  /\ Wallet.cancelTrustRequestSentToMe Sample.wallet2 1
       (Sample.with_relationship TrustRelationship.requested)
     = (Sample.with_relationship TrustRelationship.requested,
        Throw (Forbidden "Have no permission to cancel this relationship")).
Proof.
  split; [|split].
  - apply (proj1 (trust_operations_forbidden_to_others Sample.wallet3
                    (Sample.with_relationship TrustRelationship.requested))).
    intros r [<-|[]] _. simpl. discriminate.
  - apply (proj1 (trust_operations_forbidden_to_others Sample.wallet3
                    (Sample.with_relationship TrustRelationship.requested))).
    intros r [<-|[]] _. simpl. discriminate.
  - apply (proj2 (trust_operations_forbidden_to_others Sample.wallet2
                    (Sample.with_relationship TrustRelationship.requested))
             (Sample.relationship TrustRelationship.requested)).
    + apply sample_trust_ids_unique.
    + simpl. left. reflexivity.
    + simpl. discriminate.
Defined.

(** C3, as stated, fails: wallet 2 accepts a second time the relationship
    it has already accepted and is not rejected; it then declines it, and
    wallet 1 cancels it, and each time the relationship leaves a terminal
    state for another. *)
Lemma terminal_state_left :
  relationship_state (Sample.with_relationship TrustRelationship.trusted) 1
  = Some TrustRelationship.trusted
  /\ Wallet.acceptTrustRequestSentToMe Sample.wallet2 1
       (Sample.with_relationship TrustRelationship.trusted)
     = (Sample.with_relationship TrustRelationship.trusted, Return tt)
  /\ Wallet.declineTrustRequestSentToMe Sample.wallet2 1
       (Sample.with_relationship TrustRelationship.trusted)
     = (Sample.with_relationship TrustRelationship.canceled_by_target, Return tt)
  /\ Wallet.cancelTrustRequestSentToMe Sample.wallet1 1
       (Sample.with_relationship TrustRelationship.canceled_by_target)
     = (Sample.with_relationship TrustRelationship.cancelled_by_originator, Return tt)
  /\ Wallet.acceptTrustRequestSentToMe Sample.wallet2 1
       (Sample.with_relationship TrustRelationship.cancelled_by_originator)
     = (Sample.with_relationship TrustRelationship.trusted, Return tt)
  /\ ~ terminal_states_are_final
  /\ ~ second_accept_is_rejected.
Proof.
  repeat split; try reflexivity.
  - intros H.
    specialize (H Sample.wallet2 1
                  (Wallet.declineTrustRequestSentToMe Sample.wallet2 1)
                  (Sample.with_relationship TrustRelationship.trusted)
                  TrustRelationship.trusted).
    assert (Hc : relationship_state
                   (fst (Wallet.declineTrustRequestSentToMe Sample.wallet2 1
                           (Sample.with_relationship TrustRelationship.trusted))) 1
                 = Some TrustRelationship.trusted).
    { apply H.
      - simpl. right. left. reflexivity.
      - reflexivity.
      - left. reflexivity. }
    discriminate Hc.
  - intros H.
    destruct (H Sample.wallet2 1 (Sample.with_relationship TrustRelationship.trusted)
                eq_refl) as [e He].
    discriminate He.
Qed.

(** C3, amended: the trust operations check who calls and never the state.
    For every relationship targeted at the caller, accept moves it to
    [trusted] and decline to [canceled_by_target], whatever its state; for
    every relationship the caller originated, cancel moves it to
    [cancelled_by_originator], whatever its state.  A second accept of a
    trusted relationship succeeds and leaves it trusted. *)
Theorem trust_operations_ignore_state (this : Wallet) (db : DB)
        (r : TrustRelationship.row) :
  trust_ids_unique db ->
  In r (entity_trust db) ->
  (TrustRelationship.target_entity_id r = Some (_id this) ->
   Wallet.acceptTrustRequestSentToMe this (TrustRelationship.id r) db
   = (relationship_moved db r TrustRelationship.trusted, Return tt)
   /\ Wallet.declineTrustRequestSentToMe this (TrustRelationship.id r) db
      = (relationship_moved db r TrustRelationship.canceled_by_target, Return tt))
  /\ (TrustRelationship.originator_entity_id r = Some (_id this) ->
      Wallet.cancelTrustRequestSentToMe this (TrustRelationship.id r) db
      = (relationship_moved db r TrustRelationship.cancelled_by_originator, Return tt))
  /\ (forall s,
         relationship_state (relationship_moved db r s) (TrustRelationship.id r) = Some s).
Proof.
  intros Hnd Hin. split; [|split].
  - intros Ht.
    unfold Wallet.acceptTrustRequestSentToMe, Wallet.declineTrustRequestSentToMe,
      Wallet.getTrustRelationshipsTargeted, TrustRepository.getByTargetId, bind, query.
    rewrite (targeted_found this db r Hnd Hin Ht). split; reflexivity.
  - intros Ho. unfold Wallet.cancelTrustRequestSentToMe, bind.
    rewrite (TrustRepository_getById_found db r Hnd Hin).
    apply number_eq_true in Ho. rewrite Ho. reflexivity.
  - intros s. apply relationship_moved_state. assumption.
Qed.

Lemma trust_operations_ignore_state_witness :
  Wallet.acceptTrustRequestSentToMe Sample.wallet2 1
    (Sample.with_relationship TrustRelationship.canceled_by_target)
  = (Sample.with_relationship TrustRelationship.trusted, Return tt)
  /\ Wallet.cancelTrustRequestSentToMe Sample.wallet1 1
       (Sample.with_relationship TrustRelationship.trusted)
     = (Sample.with_relationship TrustRelationship.cancelled_by_originator, Return tt).
Proof.
  split.
  - destruct (trust_operations_ignore_state Sample.wallet2
                (Sample.with_relationship TrustRelationship.canceled_by_target)
                (Sample.relationship TrustRelationship.canceled_by_target)
                (sample_trust_ids_unique _) (or_introl eq_refl))
      as (Htarget & _).
    exact (proj1 (Htarget eq_refl)).
  - destruct (trust_operations_ignore_state Sample.wallet1
                (Sample.with_relationship TrustRelationship.trusted)
                (Sample.relationship TrustRelationship.trusted)
                (sample_trust_ids_unique _) (or_introl eq_refl))
      as (_ & Horiginator & _).
    exact (Horiginator eq_refl).
Defined.

(** ** Authentication *)

(** C9: [authorize] fails with InvalidInput on an absent or empty password;
    otherwise it hashes the password with HMAC-SHA512 keyed by the stored
    salt, fails with Unauthorized when the hash is not the stored one, and
    on a match returns an object whose only property is the wallet id. *)
Theorem authorize_checks_keyed_hash (hmac : string -> string -> string)
        (this : Wallet) (db : DB) :
  Wallet.authorize hmac this None db
  = (db, Throw (InvalidInput "Error: Invalid credential format"))
  /\ Wallet.authorize hmac this (Some "") db
     = (db, Throw (InvalidInput "Error: Invalid credential format"))
  /\ (forall (w : WalletRecord) (password : string),
         wallet_ids_unique db -> In w (wallet_table db) -> wallet_id w = _id this ->
         password <> "" ->
         Wallet.sha512 hmac password (wallet_salt w) = hmac (wallet_salt w) password
         /\ (hmac (wallet_salt w) password <> wallet_password w ->
             Wallet.authorize hmac this (Some password) db
             = (db, Throw (Unauthorized "Invalid credentials")))
         /\ (hmac (wallet_salt w) password = wallet_password w ->
             Wallet.authorize hmac this (Some password) db
             = (db, Return [("id", _id this)]))).
Proof.
  split; [reflexivity|]. split; [reflexivity|].
  intros w password Hnd Hin Hid Hne.
  assert (Hrun : Wallet.authorize hmac this (Some password) db
                 = if negb (String.eqb (hmac (wallet_salt w) password) (wallet_password w))
                   then (db, Throw (Unauthorized "Invalid credentials"))
                   else (db, Return [("id", _id this)])).
  { destruct password as [|c rest]; [contradiction|].
    unfold Wallet.authorize, Wallet.toJSON, WalletRepository.getById, bind.
    rewrite <- Hid, (getById_found wallet_id wallet_table db w Hnd Hin).
    unfold Wallet.sha512.
    destruct (negb (String.eqb _ _)); reflexivity. }
  split; [reflexivity|]. split.
  - intros Hhash. rewrite Hrun. apply String.eqb_neq in Hhash. rewrite Hhash. reflexivity.
  - intros Hhash. rewrite Hrun, Hhash, String.eqb_refl. reflexivity.
Qed.

Lemma authorize_checks_keyed_hash_witness :
  Wallet.authorize Sample.hmac Sample.wallet1 (Some "secret") Sample.empty
  = (Sample.empty, Return [("id", 1)])
  /\ Wallet.authorize Sample.hmac Sample.wallet1 (Some "guess") Sample.empty
     = (Sample.empty, Throw (Unauthorized "Invalid credentials")).
Proof.
  assert (Hnd : wallet_ids_unique Sample.empty).
  { unfold wallet_ids_unique. simpl.
    repeat constructor; simpl; intuition discriminate. }
  destruct (authorize_checks_keyed_hash Sample.hmac Sample.wallet1 Sample.empty)
    as (_ & _ & H).
  split.
  - destruct (H Sample.alice "secret" Hnd (or_introl eq_refl) eq_refl) as (_ & _ & Hok);
      [discriminate|].
    apply Hok. reflexivity.
  - destruct (H Sample.alice "guess" Hnd (or_introl eq_refl) eq_refl) as (_ & Hbad & _);
      [discriminate|].
    apply Hbad. discriminate.
Defined.

(** ** Trust requests *)

Lemma Array_some_outcome_run {A : Type} (callback : A -> M bool)
      (o : A -> Outcome bool) (array : list A) (db : DB) :
  (forall x, callback x db = (db, o x)) ->
  Array_some callback array db = (db, Array_some_outcome o array).
Proof.
  intros H. induction array as [|x rest IH]; simpl; [reflexivity|].
  unfold bind. rewrite H. destruct (o x) as [[|]|e]; [reflexivity | exact IH | reflexivity].
Qed.

Lemma Array_some_outcome_app {A : Type} (o : A -> Outcome bool) (l l' : list A) :
  Array_some_outcome o l = Return false ->
  Array_some_outcome o (l ++ l') = Array_some_outcome o l'.
Proof.
  induction l as [|x rest IH]; simpl; [reflexivity|].
  destruct (o x) as [[|]|e]; [discriminate | exact IH | discriminate].
Qed.

Lemma already_requested_run (b : bool) (requestType : string) (target : Wallet)
      (r : TrustRelationship.row) (db : DB) :
  bind (expect.defined b (TrustRelationship.type r))
       (fun _ =>
          bind (expect.number (TrustRelationship.target_entity_id r))
               (fun _ =>
                  ret (string_eq (TrustRelationship.type r) requestType
                       && number_eq (TrustRelationship.target_entity_id r)
                                    (Wallet.getId target)))) db
  = (db, already_requested b requestType (Wallet.getId target) r).
Proof.
  unfold already_requested, bind, expect.defined, expect.number.
  destruct (TrustRelationship.type r) as [t|], b,
    (TrustRelationship.target_entity_id r) as [n|]; reflexivity.
Qed.

Lemma orderBy_id_desc_limit_1_last (table : list TrustRelationship.row)
      (new : TrustRelationship.row) :
  (forall r, In r table -> TrustRelationship.id r < TrustRelationship.id new) ->
  TrustRepository.orderBy_id_desc_limit_1 (table ++ [new]) = [new].
Proof.
  induction table as [|x rest IH]; intros H; simpl; [reflexivity|].
  rewrite IH by (intros r Hr; apply H; right; assumption).
  assert (Hx : TrustRelationship.id x < TrustRelationship.id new)
    by (apply H; left; reflexivity).
  apply Z.ltb_lt in Hx. rewrite Hx. reflexivity.
Qed.

Lemma create_run (o : TrustRepository.object) (db : DB) :
  TrustRepository.create o db
  = (with_entity_trust db
       (entity_trust db
        ++ [TrustRepository.inserted_row
              (BaseRepository.next_id TrustRelationship.id (entity_trust db)) o]),
     Return (Some (TrustRepository.inserted_row
                     (BaseRepository.next_id TrustRelationship.id (entity_trust db)) o))).
Proof.
  unfold TrustRepository.create, bind, modify, query, ret, TrustRepository.insert.
  simpl. rewrite orderBy_id_desc_limit_1_last; [reflexivity|].
  intros r Hr. simpl. apply next_id_above. assumption.
Qed.

Section Request.

Variable types : TrustRelationship.enumeration.
Variable null_is_defined : bool.
Variable this : Wallet.
Variables requestType targetWalletName : string.

(** [requestTrustFromAWallet], step by step. *)
Lemma requestTrustFromAWallet_run (db : DB) :
  Wallet.requestTrustFromAWallet types null_is_defined this requestType
                                 targetWalletName db
  = if negb (existsb (String.eqb requestType) (TrustRelationship.Object_keys types))
    then (db, Throw (InvalidInput
                       ("The trust request type must be one of "
                        ++ String.concat "," (TrustRelationship.Object_keys types))))
    else if negb (expect.test_nonspace targetWalletName)
    then (db, Throw (InvalidInput "Invalid wallet name"))
    else
      match WalletService.first_with_name targetWalletName (wallet_table db) with
      | None => (db, Throw (NotFound "Not found"))
      | Some w =>
          match Array_some_outcome
                  (already_requested null_is_defined requestType (wallet_id w))
                  (filter (fun r =>
                             number_eq (TrustRelationship.originator_entity_id r)
                                       (_id this))
                          (entity_trust db)) with
          | Throw e => (db, Throw e)
          | Return true => (db, Throw (Forbidden "The trust requested has existed"))
          | Return false =>
              TrustRepository.create
                (requested_object this requestType (new_Wallet (wallet_id w))) db
          end
      end.
Proof.
  unfold Wallet.requestTrustFromAWallet.
  unfold bind at 1. unfold expect.oneOf at 1.
  destruct (existsb (String.eqb requestType) _); simpl; [|reflexivity].
  unfold bind at 1. unfold expect.match_nonspace at 1.
  destruct (expect.test_nonspace targetWalletName); simpl; [|reflexivity].
  unfold bind at 1. unfold WalletService.getByName, bind at 1, query.
  destruct (WalletService.first_with_name targetWalletName (wallet_table db)) as [w|];
    simpl; [|reflexivity].
  unfold bind at 1. unfold Wallet.getTrustRelationshipsRequested,
    TrustRepository.getByOriginatorId, query.
  unfold bind at 1.
  rewrite (Array_some_outcome_run _
             (already_requested null_is_defined requestType (wallet_id w)));
    [|intros r; apply (already_requested_run _ _ (new_Wallet (wallet_id w)))].
  destruct (Array_some_outcome _ _) as [[|]|e]; [reflexivity| |reflexivity].
  unfold bind at 1. unfold Wallet.checkTrustRequestSentToMe, ret at 1.
  unfold requested_object, Wallet.getId, bind. cbn [_id].
  rewrite create_run. reflexivity.
Qed.

End Request.

(** ** Unique ids are kept by the repositories *)

Lemma TrustRepository_update_ids (db : DB) (r : TrustRelationship.row)
      (s : TrustRelationship.ENTITY_TRUST_STATE_TYPE) :
  map TrustRelationship.id (entity_trust (relationship_moved db r s))
  = map TrustRelationship.id (entity_trust db).
Proof. unfold relationship_moved. simpl. apply replace_by_id_ids. Qed.

Lemma TransferRepository_update_ids (db : DB) (t : Transfer.row) (s : Transfer.STATE) :
  map Transfer.id (transfer_table (transfer_moved db t s))
  = map Transfer.id (transfer_table db).
Proof. unfold transfer_moved. simpl. apply replace_by_id_ids. Qed.

Lemma unique_after_append {A : Type} (l : list A) (a : A) :
  NoDup l -> ~ In a l -> NoDup (l ++ [a]).
Proof.
  intros Hnd Hfresh.
  assert (HA : Add a l (l ++ [a])).
  { rewrite <- (app_nil_r l) at 1. apply Add_app. }
  apply (NoDup_Add HA). split; assumption.
Qed.

Lemma TrustRepository_create_unique (o : TrustRepository.object) (db : DB) :
  trust_ids_unique db -> trust_ids_unique (fst (TrustRepository.create o db)).
Proof.
  unfold trust_ids_unique. intros Hnd. rewrite create_run. simpl.
  rewrite map_app. simpl.
  apply unique_after_append; [exact Hnd | apply next_id_fresh].
Qed.

Lemma TransferRepository_create_unique (o : TransferRepository.object) (db : DB) :
  transfer_ids_unique db -> transfer_ids_unique (fst (TransferRepository.create o db)).
Proof.
  unfold transfer_ids_unique. intros Hnd.
  unfold TransferRepository.create, bind, query, modify, ret. simpl.
  rewrite map_app. simpl.
  apply unique_after_append; [exact Hnd | apply next_id_fresh].
Qed.

(** What a successful request tells about the run. *)
Lemma requestTrustFromAWallet_success
      (types : TrustRelationship.enumeration) (b : bool) (this : Wallet)
      (requestType targetWalletName : string) (db db' : DB)
      (result : option TrustRelationship.row) :
  Wallet.requestTrustFromAWallet types b this requestType targetWalletName db
  = (db', Return result) ->
  exists w,
    existsb (String.eqb requestType) (TrustRelationship.Object_keys types) = true
    /\ expect.test_nonspace targetWalletName = true
    /\ WalletService.first_with_name targetWalletName (wallet_table db) = Some w
    /\ Array_some_outcome (already_requested b requestType (wallet_id w))
         (filter (fun r => number_eq (TrustRelationship.originator_entity_id r) (_id this))
                 (entity_trust db))
       = Return false
    /\ TrustRepository.create
         (requested_object this requestType (new_Wallet (wallet_id w))) db
       = (db', Return result).
Proof.
  rewrite requestTrustFromAWallet_run.
  destruct (existsb (String.eqb requestType) _); simpl; [|discriminate].
  destruct (expect.test_nonspace targetWalletName); simpl; [|discriminate].
  destruct (WalletService.first_with_name targetWalletName (wallet_table db)) as [w|];
    [|discriminate].
  destruct (Array_some_outcome _ _) as [[|]|e] eqn:Hscan; try discriminate.
  intros H. exists w. repeat split; assumption || reflexivity.
Qed.

(** C6: a successful [requestTrustFromAWallet] adds exactly one row to
    [wallets.entity_trust], under a new id, whose actor and originator are
    the calling wallet, whose target is the wallet the name resolves to and
    whose state is [requested]; the row is what the call returns. *)
Theorem requestTrust_creates_one_relationship
        (types : TrustRelationship.enumeration) (b : bool) (this : Wallet)
        (requestType targetWalletName : string) (db db' : DB)
        (result : option TrustRelationship.row) :
  Wallet.requestTrustFromAWallet types b this requestType targetWalletName db
  = (db', Return result) ->
  exists targetWallet created,
    WalletService.getByName targetWalletName db = (db, Return targetWallet)
    /\ result = Some created
    /\ db' = with_entity_trust db (entity_trust db ++ [created])
    /\ TrustRelationship.actor_entity_id created = Some (_id this)
    /\ TrustRelationship.originator_entity_id created = Some (_id this)
    /\ TrustRelationship.target_entity_id created = Some (Wallet.getId targetWallet)
    /\ TrustRelationship.state created = Some TrustRelationship.requested
    /\ TrustRelationship.request_type created = Some requestType
    /\ ~ In (TrustRelationship.id created) (map TrustRelationship.id (entity_trust db)).
Proof.
  intros Hrun.
  destruct (requestTrustFromAWallet_success _ _ _ _ _ _ _ _ Hrun)
    as (w & _ & _ & Hname & _ & Hcreate).
  rewrite create_run in Hcreate. inversion Hcreate; subst; clear Hcreate.
  exists (new_Wallet (wallet_id w)).
  eexists. repeat split; try reflexivity.
  - unfold WalletService.getByName, bind, query. rewrite Hname. reflexivity.
  - simpl. apply next_id_fresh.
Qed.

Lemma requestTrust_creates_one_relationship_witness :
  exists created,
    Wallet.requestTrustFromAWallet Sample.request_types true Sample.wallet1
                                   "send" "bob" Sample.empty
    = (mkDB [Sample.alice; Sample.bob; Sample.carol] [created] [], Return (Some created))
    /\ TrustRelationship.actor_entity_id created = Some 1
    /\ TrustRelationship.originator_entity_id created = Some 1
    /\ TrustRelationship.target_entity_id created = Some 2
    /\ TrustRelationship.state created = Some TrustRelationship.requested.
Proof.
  destruct (requestTrust_creates_one_relationship
              Sample.request_types true Sample.wallet1 "send" "bob" Sample.empty
              _ _ eq_refl)
    as (targetWallet & created & Hname & Hresult & Hdb & Ha & Ho & Ht & Hs & _).
  injection Hname as <-. injection Hresult as <-.
  eexists. repeat split; reflexivity.
Defined.

(** C5 against the code: the row that a successful request creates has no
    [type], the column that the duplicate scan compares with the request
    type.  So the same request made again is not refused with Forbidden:
    either the scan lets the row pass and a second relationship is created
    for the same requester, target and type, or the assertion on [type]
    fails. *)
Theorem repeated_request_not_Forbidden
        (types : TrustRelationship.enumeration) (b : bool) (this : Wallet)
        (requestType targetWalletName : string) (db db1 : DB)
        (result : option TrustRelationship.row) :
  Wallet.requestTrustFromAWallet types b this requestType targetWalletName db
  = (db1, Return result) ->
  (exists first second,
      result = Some first
      /\ Wallet.requestTrustFromAWallet types b this requestType targetWalletName db1
         = (if b
            then (with_entity_trust db (entity_trust db ++ [first; second]),
                  Return (Some second))
            else (db1, Throw ExpectError))
      /\ TrustRelationship.request_type second = TrustRelationship.request_type first
      /\ TrustRelationship.originator_entity_id second
         = TrustRelationship.originator_entity_id first
      /\ TrustRelationship.target_entity_id second
         = TrustRelationship.target_entity_id first)
  /\ ~ is_Forbidden
       (snd (Wallet.requestTrustFromAWallet types b this requestType
                                            targetWalletName db1)).
Proof.
  intros Hrun.
  destruct (requestTrustFromAWallet_success _ _ _ _ _ _ _ _ Hrun)
    as (w & Hkey & Hspace & Hname & Hscan & Hcreate).
  rewrite create_run in Hcreate. inversion Hcreate; subst; clear Hcreate.
  set (o := requested_object this requestType (new_Wallet (wallet_id w))) in *.
  set (first := TrustRepository.inserted_row
                  (BaseRepository.next_id TrustRelationship.id (entity_trust db)) o) in *.
  set (db1 := with_entity_trust db (entity_trust db ++ [first])) in *.
  assert (Hsecond :
            Wallet.requestTrustFromAWallet types b this requestType targetWalletName db1
            = if b then TrustRepository.create o db1 else (db1, Throw ExpectError)).
  { rewrite requestTrustFromAWallet_run, Hkey, Hspace. simpl.
    rewrite Hname. rewrite filter_app. simpl.
    rewrite Z.eqb_refl. rewrite (Array_some_outcome_app _ _ _ Hscan).
    simpl. unfold already_requested. simpl. destruct b; reflexivity. }
  split.
  - exists first.
    exists (TrustRepository.inserted_row
              (BaseRepository.next_id TrustRelationship.id (entity_trust db1)) o).
    split; [reflexivity|]. split; [|repeat split].
    rewrite Hsecond. destruct b; [|reflexivity].
    rewrite create_run. unfold db1 at 1. unfold with_entity_trust. simpl.
    rewrite <- app_assoc. reflexivity.
  - rewrite Hsecond. intros [message Hm]. destruct b.
    + rewrite create_run in Hm. discriminate Hm.
    + discriminate Hm.
Qed.

Lemma repeated_request_not_Forbidden_witness :
  (exists db1 first,
      Wallet.requestTrustFromAWallet Sample.request_types true Sample.wallet1
                                     "send" "bob" Sample.empty
      = (db1, Return (Some first))
      /\ ~ is_Forbidden
           (snd (Wallet.requestTrustFromAWallet Sample.request_types true Sample.wallet1
                                                "send" "bob" db1)))
  /\ (exists db1 first,
         Wallet.requestTrustFromAWallet Sample.request_types false Sample.wallet1
                                        "send" "bob" Sample.empty
         = (db1, Return (Some first))
         /\ ~ is_Forbidden
              (snd (Wallet.requestTrustFromAWallet Sample.request_types false
                                                   Sample.wallet1 "send" "bob" db1))).
Proof.
  split.
  - eexists. eexists. split; [reflexivity|].
    apply (repeated_request_not_Forbidden Sample.request_types true Sample.wallet1
             "send" "bob" Sample.empty _ _ eq_refl).
  - eexists. eexists. split; [reflexivity|].
    apply (repeated_request_not_Forbidden Sample.request_types false Sample.wallet1
             "send" "bob" Sample.empty _ _ eq_refl).
Defined.

(** * Further properties *)

(** ** The outcomes of [transfer] *)

(** The row appended under an id that no other row has is the one found
    under that id. *)
Lemma first_with_id_last {R : Type} (id_of : R -> Z) (table : list R) (r : R) :
  (forall x, In x table -> id_of x <> id_of r) ->
  BaseRepository.first_with_id id_of (id_of r) (table ++ [r]) = Some r.
Proof.
  induction table as [|x rest IH]; intros H; simpl.
  - rewrite Z.eqb_refl. reflexivity.
  - assert (Hx : id_of x <> id_of r) by (apply H; left; reflexivity).
    apply Z.eqb_neq in Hx. rewrite Hx. apply IH.
    intros y Hy. apply H. right. assumption.
Qed.

(** [transfer], case by case on the outcome of the trust check. *)
Lemma transfer_run (types : TrustRelationship.enumeration) {Tokens : Type}
      (this sender receiver : Wallet) (tokens : Tokens) (db : DB) :
  Wallet.transfer types this sender receiver tokens db
  = match snd (Wallet.checkTrust types this (TrustRelationship.property types "send")
                                 sender receiver db) with
    | Return _ => (db, Return tt)
    | Throw e =>
        if isHttpErrorWithCode 403 e then
          if Z.eqb (Wallet.getId sender) (_id this) then
            (with_recorded_transfer this sender receiver Transfer.pending db,
             Throw (HttpError 202 "No trust, saved"))
          else if Z.eqb (Wallet.getId receiver) (_id this) then
            (with_recorded_transfer this sender receiver Transfer.requested db,
             Throw (HttpError 202 "No trust, saved"))
          else (db, Throw ExpectError)
        else (db, Throw e)
    end.
Proof.
  pose proof (checkTrust_reads_only types this
                (TrustRelationship.property types "send") sender receiver db) as Hro.
  unfold Wallet.transfer, Wallet.transfer_with, try_catch.
  destruct (Wallet.checkTrust types this _ sender receiver db) as [db' [[]|e]];
    simpl in Hro; subst db'; simpl; [reflexivity|].
  destruct (isHttpErrorWithCode 403 e); [|reflexivity].
  unfold bind, Wallet.hasControlOver.
  destruct (Z.eqb (Wallet.getId sender) (_id this)); [reflexivity|].
  destruct (Z.eqb (Wallet.getId receiver) (_id this)); reflexivity.
Qed.

(** X1: [transfer] returns normally exactly when the acting wallet holds
    the trusted relationship for (send, sender, receiver), and then it
    writes nothing. *)
Theorem transfer_returns_iff_trusted
        (types : TrustRelationship.enumeration) {Tokens : Type}
        (this sender receiver : Wallet) (tokens : Tokens) (db : DB) (send : string) :
  TrustRelationship.property types "send" = Some send ->
  In send (TrustRelationship.Object_keys types) ->
  trusted_rows_well_shaped db (_id this) ->
  (trusted_relationship_exists db (_id this) (Wallet.getId sender)
                               (Wallet.getId receiver) send
   <-> Wallet.transfer types this sender receiver tokens db = (db, Return tt)).
Proof.
  intros Hsend Hkey Hshape.
  rewrite transfer_run, Hsend.
  rewrite (checkTrust_run types this send sender receiver db Hkey Hshape).
  pose proof (grants_exists db (_id this) (Wallet.getId sender) (Wallet.getId receiver)
                            send) as Hex.
  cbn [snd]. destruct (existsb _ _).
  - split; [reflexivity | intros _; apply Hex; reflexivity].
  - cbn [isHttpErrorWithCode Forbidden]. simpl Z.eqb. cbv iota.
    split; [intros H; apply Hex in H; discriminate|].
    destruct (Z.eqb (Wallet.getId sender) (_id this)); [discriminate|].
    destruct (Z.eqb (Wallet.getId receiver) (_id this)); discriminate.
Qed.

Lemma transfer_returns_iff_trusted_witness :
  Wallet.transfer Sample.request_types Sample.wallet1 Sample.wallet1 Sample.wallet2 tt
                  (Sample.with_relationship TrustRelationship.trusted)
  = (Sample.with_relationship TrustRelationship.trusted, Return tt).
Proof.
  assert (Hshape : trusted_rows_well_shaped
                     (Sample.with_relationship TrustRelationship.trusted) 1).
  { intros r [<-|[]] _ _. repeat split; discriminate. }
  apply (transfer_returns_iff_trusted
           Sample.request_types Sample.wallet1 Sample.wallet1 Sample.wallet2 tt
           (Sample.with_relationship TrustRelationship.trusted) "send"
           eq_refl (or_introl eq_refl) Hshape).
  exists (Sample.relationship TrustRelationship.trusted).
  simpl. repeat split; try reflexivity. left. reflexivity.
Defined.

(** X2: when the trust check fails with Forbidden, the sender is another
    wallet and the receiver is the acting wallet, [transfer] records one
    transfer in state [requested] and ends with the HTTP error 202. *)
Theorem transfer_requested_when_receiver_controlled
        (types : TrustRelationship.enumeration) {Tokens : Type}
        (this sender receiver : Wallet) (tokens : Tokens) (db : DB) (message : string) :
  snd (Wallet.checkTrust types this (TrustRelationship.property types "send")
                         sender receiver db)
  = Throw (Forbidden message) ->
  Wallet.getId sender <> _id this ->
  Wallet.getId receiver = _id this ->
  Wallet.transfer types this sender receiver tokens db
  = (with_recorded_transfer this sender receiver Transfer.requested db,
     Throw (HttpError 202 "No trust, saved"))
  /\ transfer_state (with_recorded_transfer this sender receiver Transfer.requested db)
                    (Transfer.id (recorded_transfer this sender receiver
                                                    Transfer.requested db))
     = Some Transfer.requested.
Proof.
  intros Hcheck Hsender Hreceiver. split.
  - rewrite transfer_run, Hcheck. simpl.
    apply Z.eqb_neq in Hsender. rewrite Hsender, Hreceiver, Z.eqb_refl. reflexivity.
  - unfold transfer_state, with_recorded_transfer, with_transfer_table.
    cbn [transfer_table].
    rewrite (first_with_id_last Transfer.id); [reflexivity|].
    intros x Hx. simpl. pose proof (next_id_above Transfer.id _ x Hx). lia.
Qed.

Lemma transfer_requested_when_receiver_controlled_witness :
  Wallet.transfer Sample.request_types Sample.wallet3 Sample.wallet1 Sample.wallet3 tt
                  Sample.empty
  = (Sample.with_transfer Transfer.requested, Throw (HttpError 202 "No trust, saved")).
Proof.
  apply (proj1 (transfer_requested_when_receiver_controlled
                  Sample.request_types Sample.wallet3 Sample.wallet1 Sample.wallet3 tt
                  Sample.empty "Have no permission to do this action" eq_refl
                  ltac:(simpl; lia) eq_refl)).
Defined.

(** X3: when the trust check fails with Forbidden and the acting wallet is
    neither the sender nor the receiver, [transfer] writes nothing and ends
    with the failure of [expect.fail()], which is no [HttpError]: the error
    handler answers it with status 500. *)
Theorem transfer_fails_without_control
        (types : TrustRelationship.enumeration) {Tokens : Type}
        (this sender receiver : Wallet) (tokens : Tokens) (db : DB) (message : string) :
  snd (Wallet.checkTrust types this (TrustRelationship.property types "send")
                         sender receiver db)
  = Throw (Forbidden message) ->
  Wallet.getId sender <> _id this ->
  Wallet.getId receiver <> _id this ->
  Wallet.transfer types this sender receiver tokens db = (db, Throw ExpectError)
  /\ status (errorHandler ExpectError) = 500.
Proof.
  intros Hcheck Hsender Hreceiver. split; [|reflexivity].
  rewrite transfer_run, Hcheck. simpl.
  apply Z.eqb_neq in Hsender. apply Z.eqb_neq in Hreceiver.
  rewrite Hsender, Hreceiver. reflexivity.
Qed.

Lemma transfer_fails_without_control_witness :
  Wallet.transfer Sample.request_types Sample.wallet2 Sample.wallet1 Sample.wallet3 tt
                  Sample.empty
  = (Sample.empty, Throw ExpectError).
Proof.
  apply (proj1 (transfer_fails_without_control
                  Sample.request_types Sample.wallet2 Sample.wallet1 Sample.wallet3 tt
                  Sample.empty "Have no permission to do this action" eq_refl
                  ltac:(simpl; lia) ltac:(simpl; lia))).
Defined.

(** ** What [checkTrust] can throw *)

Lemma Array_some_throws_ExpectError {A : Type} (callback : A -> M bool)
      (array : list A) :
  (forall x db e, snd (callback x db) = Throw e -> e = ExpectError) ->
  forall db e, snd (Array_some callback array db) = Throw e -> e = ExpectError.
Proof.
  intros H. induction array as [|x rest IH]; intros db e; simpl; [discriminate|].
  unfold bind. specialize (H x db).
  destruct (callback x db) as [db' [[|]|e']]; simpl in *.
  - discriminate.
  - apply IH.
  - intros [= <-]. apply H. reflexivity.
Qed.

Lemma checkTrust_throws (types : TrustRelationship.enumeration) (this : Wallet)
      (trustType : option string) (source target : Wallet) (db : DB) (e : Exception) :
  snd (Wallet.checkTrust types this trustType source target db) = Throw e ->
  e = ExpectError \/ e = Forbidden "Have no permission to do this action".
Proof.
  unfold Wallet.checkTrust, bind.
  destruct (expect.oneOf trustType _ ExpectError db) as [db0 [[]|e0]] eqn:E1.
  - unfold Wallet.getTrustRelationshipsTrusted,
      TrustRepository.getTrustedByOriginatorId, query.
    match goal with
    | |- snd (match Array_some ?cb ?l db0 with _ => _ end) = _ -> _ =>
        pose proof (Array_some_throws_ExpectError cb l) as Hs
    end.
    match type of Hs with
    | ?P -> _ => assert (Hcb : P)
    end.
    { intros r d e'. unfold bind, expect.match_trust_shape.
      destruct (TrustRelationship.actor_entity_id r) as [a|];
        [|simpl; intros [= <-]; reflexivity].
      destruct (TrustRelationship.target_entity_id r) as [t|];
        [|simpl; intros [= <-]; reflexivity].
      destruct (TrustRelationship.request_type r) as [q|];
        [|simpl; intros [= <-]; reflexivity].
      simpl. match goal with |- snd ((if ?c then _ else _) d) = _ -> _ => destruct c end;
        discriminate. }
    specialize (Hs Hcb db0).
    match goal with
    | |- snd (match ?scan with _ => _ end) = _ -> _ =>
        destruct scan as [d [[|]|e1]]
    end; simpl in *.
    + discriminate.
    + intros [= <-]. right. reflexivity.
    + intros [= <-]. left. apply (Hs e1). reflexivity.
  - simpl. intros [= <-]. left.
    unfold expect.oneOf in E1. destruct trustType as [v|].
    + destruct (existsb _ _); inversion E1; reflexivity.
    + inversion E1; reflexivity.
Qed.

(** X4: whatever its arguments, [transfer] leaves the wallets and the
    trust relationships alone; it ends with the HTTP error 202 exactly when
    it has recorded one transfer, in state [pending] or [requested], from
    the sender to the receiver and originated by the acting wallet;
    otherwise the database is as before. *)
Theorem transfer_records_iff_deferred
        (types : TrustRelationship.enumeration) {Tokens : Type}
        (this sender receiver : Wallet) (tokens : Tokens) (db : DB) :
  wallet_table (fst (Wallet.transfer types this sender receiver tokens db))
  = wallet_table db
  /\ entity_trust (fst (Wallet.transfer types this sender receiver tokens db))
     = entity_trust db
  /\ ((fst (Wallet.transfer types this sender receiver tokens db) = db
       /\ forall message,
            snd (Wallet.transfer types this sender receiver tokens db)
            <> Throw (HttpError 202 message))
      \/ (exists s,
             (s = Transfer.pending \/ s = Transfer.requested)
             /\ Wallet.transfer types this sender receiver tokens db
                = (with_recorded_transfer this sender receiver s db,
                   Throw (HttpError 202 "No trust, saved")))).
Proof.
  rewrite transfer_run.
  destruct (snd (Wallet.checkTrust types this _ sender receiver db)) as [[]|e] eqn:Hc.
  - simpl. repeat split. left. split; [reflexivity | discriminate].
  - destruct (checkTrust_throws _ _ _ _ _ _ _ Hc) as [-> | ->]; simpl.
    + repeat split. left. split; [reflexivity | discriminate].
    + destruct (Z.eqb (Wallet.getId sender) (_id this)).
      * simpl. repeat split. right. exists Transfer.pending. auto.
      * destruct (Z.eqb (Wallet.getId receiver) (_id this)).
        -- simpl. repeat split. right. exists Transfer.requested. auto.
        -- simpl. repeat split. left. split; [reflexivity | discriminate].
Qed.

(** ** The scan of [checkTrust], row by row *)

Lemma checkTrust_scan (types : TrustRelationship.enumeration) (this : Wallet)
      (requestType : string) (source target : Wallet) (db : DB) :
  In requestType (TrustRelationship.Object_keys types) ->
  Wallet.checkTrust types this (Some requestType) source target db
  = (db,
     match Array_some_outcome
             (checked (Wallet.getId source) (Wallet.getId target) requestType)
             (trusted_rows db (_id this)) with
     | Return true => Return tt
     | Return false => Throw (Forbidden "Have no permission to do this action")
     | Throw e => Throw e
     end).
Proof.
  intros Hkey. unfold Wallet.checkTrust.
  unfold bind at 1. rewrite (oneOf_member _ _ _ _ Hkey).
  unfold bind at 1. unfold Wallet.getTrustRelationshipsTrusted,
    TrustRepository.getTrustedByOriginatorId, query.
  unfold bind at 1.
  rewrite (Array_some_outcome_run _
             (checked (Wallet.getId source) (Wallet.getId target) requestType)).
  - fold (trusted_rows db (_id this)).
    destruct (Array_some_outcome _ _) as [[|]|e]; reflexivity.
  - intros r. unfold bind, expect.match_trust_shape, checked, grants,
      Wallet.string_eq_value.
    destruct (TrustRelationship.actor_entity_id r) as [a|]; [|reflexivity].
    destruct (TrustRelationship.target_entity_id r) as [t|]; [|reflexivity].
    destruct (TrustRelationship.request_type r) as [q|]; [|reflexivity].
    unfold ret at 1. cbv beta iota.
    destruct (_ && _ && _); reflexivity.
Qed.

Lemma checked_before (source target : Z) (requestType : string)
      (before : list TrustRelationship.row) :
  (forall r, In r before ->
             well_shaped r /\ grants source target requestType r = false) ->
  Array_some_outcome (checked source target requestType) before = Return false.
Proof.
  induction before as [|x rest IH]; intros H; simpl; [reflexivity|].
  destruct (H x (or_introl eq_refl)) as [(Ha & Ht & Hr) Hg].
  unfold checked at 1.
  destruct (TrustRelationship.actor_entity_id x); [|contradiction].
  destruct (TrustRelationship.target_entity_id x); [|contradiction].
  destruct (TrustRelationship.request_type x); [|contradiction].
  rewrite Hg. apply IH. intros r Hr'. apply H. right. assumption.
Qed.

(** X5: the scan of [checkTrust] goes through the trusted relationships of
    the acting wallet in the order of the table and stops at the first row
    that decides: rows behind a matching row are not looked at, and a row
    that lacks its actor, target or request type stops the check with the
    assertion failure, also when a matching row follows. *)
Theorem checkTrust_stops_at_first_deciding_row
        (types : TrustRelationship.enumeration) (this : Wallet)
        (requestType : string) (source target : Wallet) (db : DB)
        (before after : list TrustRelationship.row) (r : TrustRelationship.row) :
  In requestType (TrustRelationship.Object_keys types) ->
  trusted_rows db (_id this) = (before ++ r :: after)%list ->
  (forall x, In x before ->
             well_shaped x
             /\ grants (Wallet.getId source) (Wallet.getId target) requestType x = false) ->
  (well_shaped r ->
   grants (Wallet.getId source) (Wallet.getId target) requestType r = true ->
   Wallet.checkTrust types this (Some requestType) source target db = (db, Return tt))
  /\ (~ well_shaped r ->
      Wallet.checkTrust types this (Some requestType) source target db
      = (db, Throw ExpectError)).
Proof.
  intros Hkey Hrows Hbefore.
  rewrite (checkTrust_scan types this requestType source target db Hkey), Hrows.
  rewrite (Array_some_outcome_app _ _ _ (checked_before _ _ _ _ Hbefore)).
  simpl. unfold checked at 1. unfold checked at 2. unfold well_shaped.
  destruct (TrustRelationship.actor_entity_id r) as [a|],
           (TrustRelationship.target_entity_id r) as [t|],
           (TrustRelationship.request_type r) as [q|];
    (split; [intros (Ha & Ht & Hq) Hg; try contradiction
            | intros Hn; try reflexivity]).
  - rewrite Hg. reflexivity.
  - exfalso. apply Hn. repeat split; discriminate.
Qed.

Lemma checkTrust_stops_at_first_deciding_row_witness :
  Wallet.checkTrust Sample.request_types Sample.wallet1 (Some "send")
                    Sample.wallet1 Sample.wallet2 Scenario.match_then_ill_shaped
  = (Scenario.match_then_ill_shaped, Return tt)
  /\ Wallet.checkTrust Sample.request_types Sample.wallet1 (Some "send")
                       Sample.wallet1 Sample.wallet2 Scenario.ill_shaped_then_match
     = (Scenario.ill_shaped_then_match, Throw ExpectError).
Proof.
  split.
  - apply (proj1 (checkTrust_stops_at_first_deciding_row
                    Sample.request_types Sample.wallet1 "send"
                    Sample.wallet1 Sample.wallet2 Scenario.match_then_ill_shaped
                    [] _ _ (or_introl eq_refl) eq_refl
                    (fun x (F : In x []) => match F with end))).
    + repeat split; discriminate.
    + reflexivity.
  - apply (proj2 (checkTrust_stops_at_first_deciding_row
                    Sample.request_types Sample.wallet1 "send"
                    Sample.wallet1 Sample.wallet2 Scenario.ill_shaped_then_match
                    [] _ _ (or_introl eq_refl) eq_refl
                    (fun x (F : In x []) => match F with end))).
    intros (Ha & _). apply Ha. reflexivity.
Defined.

(** X6: a trust type that is undefined or is no key of the enumeration
    makes [checkTrust] fail with the assertion failure before it reads any
    relationship, so also when a trusted relationship carries that type; and
    when the value of [ENTITY_TRUST_REQUEST_TYPE.send] is no such key,
    [transfer] rethrows that failure and records nothing. *)
Theorem checkTrust_rejects_unknown_type
        (types : TrustRelationship.enumeration) (this source target : Wallet) (db : DB) :
  (forall trustType,
      (forall v, trustType = Some v -> ~ In v (TrustRelationship.Object_keys types)) ->
      Wallet.checkTrust types this trustType source target db = (db, Throw ExpectError))
  /\ ((forall v, TrustRelationship.property types "send" = Some v ->
                 ~ In v (TrustRelationship.Object_keys types)) ->
      Wallet.transfer types this source target tt db = (db, Throw ExpectError)).
Proof.
  assert (Hcheck : forall trustType,
             (forall v, trustType = Some v ->
                        ~ In v (TrustRelationship.Object_keys types)) ->
             Wallet.checkTrust types this trustType source target db
             = (db, Throw ExpectError)).
  { intros trustType H. unfold Wallet.checkTrust, bind, expect.oneOf.
    destruct trustType as [v|]; [|reflexivity].
    destruct (existsb (String.eqb v) _) eqn:E; [|reflexivity].
    exfalso. apply existsb_exists in E. destruct E as [k [Hin Hk]].
    apply String.eqb_eq in Hk. subst k. exact (H v eq_refl Hin). }
  split; [exact Hcheck|].
  intros H. rewrite transfer_run, (Hcheck _ H). reflexivity.
Qed.

Lemma checkTrust_rejects_unknown_type_witness :
  Wallet.checkTrust Sample.request_types Sample.wallet1 (Some "manage")
                    Sample.wallet1 Sample.wallet2
                    (Sample.with_relationship TrustRelationship.trusted)
  = (Sample.with_relationship TrustRelationship.trusted, Throw ExpectError)
  /\ Wallet.transfer [("receive", "receive")] Sample.wallet1 Sample.wallet1
                     Sample.wallet2 tt Sample.empty
     = (Sample.empty, Throw ExpectError).
Proof.
  split.
  - apply (proj1 (checkTrust_rejects_unknown_type
                    Sample.request_types Sample.wallet1 Sample.wallet1 Sample.wallet2
                    (Sample.with_relationship TrustRelationship.trusted))).
    intros v [= <-]. simpl. intros [H|[H|[]]]; discriminate H.
  - apply (proj2 (checkTrust_rejects_unknown_type
                    [("receive", "receive")] Sample.wallet1 Sample.wallet1
                    Sample.wallet2 Sample.empty)).
    simpl. intros v H. discriminate H.
Defined.

(** ** Requests that are refused *)

Lemma test_nonspace_false (name : string) :
  expect.test_nonspace name = false
  <-> Forall (fun c => expect.is_space c = true) (list_ascii_of_string name).
Proof.
  induction name as [|c rest IH]; simpl.
  - split; [constructor | reflexivity].
  - rewrite orb_false_iff, negb_false_iff, IH. split.
    + intros [Hc Hrest]. constructor; assumption.
    + intros H. inversion H; subst. split; assumption.
Qed.

(** X7: [requestTrustFromAWallet] validates its arguments in order and
    before it touches the database: a request type that is no key of the
    enumeration is refused with status 400 and a message that lists the
    keys, whatever the name; with a known type, a name made of white space
    only (the empty name too) is refused with status 400. *)
Theorem requestTrust_validates_arguments
        (types : TrustRelationship.enumeration) (b : bool) (this : Wallet)
        (requestType targetWalletName : string) (db : DB) :
  (~ In requestType (TrustRelationship.Object_keys types) ->
   Wallet.requestTrustFromAWallet types b this requestType targetWalletName db
   = (db, Throw (InvalidInput
                   ("The trust request type must be one of "
                    ++ String.concat "," (TrustRelationship.Object_keys types)))))
  /\ (In requestType (TrustRelationship.Object_keys types) ->
      Forall (fun c => expect.is_space c = true) (list_ascii_of_string targetWalletName) ->
      Wallet.requestTrustFromAWallet types b this requestType targetWalletName db
      = (db, Throw (InvalidInput "Invalid wallet name"))).
Proof.
  rewrite requestTrustFromAWallet_run. split.
  - intros Hno.
    destruct (existsb (String.eqb requestType) _) eqn:E; [|reflexivity].
    exfalso. apply existsb_exists in E. destruct E as [k [Hin Hk]].
    apply String.eqb_eq in Hk. subst k. exact (Hno Hin).
  - intros Hkey Hblank.
    assert (existsb (String.eqb requestType) (TrustRelationship.Object_keys types) = true)
      as ->.
    { apply existsb_exists. exists requestType. split; [assumption | apply String.eqb_refl]. }
    apply test_nonspace_false in Hblank. rewrite Hblank. reflexivity.
Qed.

Lemma requestTrust_validates_arguments_witness :
  Wallet.requestTrustFromAWallet Sample.request_types true Sample.wallet1
                                 "manage" "bob" Sample.empty
  = (Sample.empty,
     Throw (InvalidInput "The trust request type must be one of send,receive"))
  /\ Wallet.requestTrustFromAWallet Sample.request_types true Sample.wallet1
                                    "send" "  " Sample.empty
     = (Sample.empty, Throw (InvalidInput "Invalid wallet name")).
Proof.
  split.
  - apply (proj1 (requestTrust_validates_arguments
                    Sample.request_types true Sample.wallet1 "manage" "bob" Sample.empty)).
    simpl. intros [H|[H|[]]]; discriminate H.
  - apply (proj2 (requestTrust_validates_arguments
                    Sample.request_types true Sample.wallet1 "send" "  " Sample.empty)).
    + simpl. left. reflexivity.
    + simpl. repeat constructor.
Defined.

(** X8: a request that throws, whatever the error, leaves the database as
    it was; the only write of [requestTrustFromAWallet] is the insert of a
    request that succeeds. *)
Theorem requestTrust_failure_writes_nothing
        (types : TrustRelationship.enumeration) (b : bool) (this : Wallet)
        (requestType targetWalletName : string) (db : DB) (e : Exception) :
  snd (Wallet.requestTrustFromAWallet types b this requestType targetWalletName db)
  = Throw e ->
  fst (Wallet.requestTrustFromAWallet types b this requestType targetWalletName db) = db.
Proof.
  rewrite requestTrustFromAWallet_run.
  destruct (negb (existsb (String.eqb requestType) _)); [reflexivity|].
  destruct (negb (expect.test_nonspace targetWalletName)); [reflexivity|].
  destruct (WalletService.first_with_name targetWalletName (wallet_table db)) as [w|];
    [|reflexivity].
  destruct (Array_some_outcome _ _) as [[|]|e']; [reflexivity| |reflexivity].
  rewrite create_run. discriminate.
Qed.

Lemma requestTrust_failure_writes_nothing_witness :
  fst (Wallet.requestTrustFromAWallet Sample.request_types false Sample.wallet1
                                      "send" "bob"
                                      (Sample.with_relationship TrustRelationship.requested))
  = Sample.with_relationship TrustRelationship.requested.
Proof.
  apply (requestTrust_failure_writes_nothing
           Sample.request_types false Sample.wallet1 "send" "bob"
           (Sample.with_relationship TrustRelationship.requested) ExpectError).
  reflexivity.
Defined.

Lemma getByName_found (name : string) (db db' : DB) (targetWallet : Wallet) :
  WalletService.getByName name db = (db', Return targetWallet) ->
  exists w, WalletService.first_with_name name (wallet_table db) = Some w
            /\ targetWallet = new_Wallet (wallet_id w).
Proof.
  unfold WalletService.getByName, bind, query.
  destruct (WalletService.first_with_name name (wallet_table db)) as [w|];
    [|discriminate].
  unfold ret. intros [= _ <-]. exists w. split; reflexivity.
Qed.

Lemma already_requested_exists (b : bool) (requestType : string) (target : Z)
      (rows : list TrustRelationship.row) :
  (forall r, In r rows ->
             (b = true \/ TrustRelationship.type r <> None)
             /\ TrustRelationship.target_entity_id r <> None) ->
  Array_some_outcome (already_requested b requestType target) rows
  = Return (existsb (fun r => string_eq (TrustRelationship.type r) requestType
                              && number_eq (TrustRelationship.target_entity_id r) target)
                    rows).
Proof.
  induction rows as [|x rest IH]; intros H; simpl; [reflexivity|].
  destruct (H x (or_introl eq_refl)) as [Htype Htarget].
  rewrite IH by (intros r Hr; apply H; right; assumption).
  unfold already_requested.
  destruct (TrustRelationship.target_entity_id x) as [t|]; [|contradiction].
  destruct (TrustRelationship.type x) as [ty|].
  - destruct (string_eq (Some ty) requestType && number_eq (Some t) target); reflexivity.
  - destruct Htype as [-> | Hn]; [|contradiction]. reflexivity.
Qed.

(** X9: what the duplicate check of [requestTrustFromAWallet] detects.
    For valid arguments and a name that resolves, and when the
    relationships that the caller originated have their target (and their
    [type], unless the assertion lets NULL pass), the request is refused
    with Forbidden exactly when one of them has the request type in its
    column [type] and the resolved wallet as its target. *)
Theorem requestTrust_refused_iff_type_matches
        (types : TrustRelationship.enumeration) (b : bool) (this : Wallet)
        (requestType targetWalletName : string) (db : DB) (targetWallet : Wallet) :
  In requestType (TrustRelationship.Object_keys types) ->
  expect.test_nonspace targetWalletName = true ->
  WalletService.getByName targetWalletName db = (db, Return targetWallet) ->
  (forall r, In r (entity_trust db) ->
             TrustRelationship.originator_entity_id r = Some (_id this) ->
             (b = true \/ TrustRelationship.type r <> None)
             /\ TrustRelationship.target_entity_id r <> None) ->
  (Wallet.requestTrustFromAWallet types b this requestType targetWalletName db
   = (db, Throw (Forbidden "The trust requested has existed"))
   <-> exists r,
         In r (entity_trust db)
         /\ TrustRelationship.originator_entity_id r = Some (_id this)
         /\ TrustRelationship.type r = Some requestType
         /\ TrustRelationship.target_entity_id r = Some (Wallet.getId targetWallet)).
Proof.
  intros Hkey Hname Hresolve Hrows.
  destruct (getByName_found _ _ _ _ Hresolve) as (w & Hw & ->).
  rewrite requestTrustFromAWallet_run.
  assert (existsb (String.eqb requestType) (TrustRelationship.Object_keys types) = true)
    as ->.
  { apply existsb_exists. exists requestType. split; [assumption | apply String.eqb_refl]. }
  rewrite Hname, Hw. simpl negb. cbv iota.
  rewrite already_requested_exists.
  2:{ intros r Hr. apply filter_In in Hr. destruct Hr as [Hin Ho].
      apply number_eq_true in Ho. exact (Hrows r Hin Ho). }
  match goal with |- context [existsb ?p ?l] => destruct (existsb p l) eqn:E end.
  - split; [intros _|reflexivity].
    apply existsb_exists in E. destruct E as (r & Hr & Hp).
    apply filter_In in Hr. destruct Hr as [Hin Ho].
    apply number_eq_true in Ho.
    apply andb_true_iff in Hp. destruct Hp as [Hty Htg].
    apply string_eq_true in Hty. apply number_eq_true in Htg.
    exists r. auto.
  - split.
    + rewrite create_run. intros H. discriminate H.
    + intros (r & Hin & Ho & Hty & Htg). exfalso.
      assert (Ht : existsb (fun r => string_eq (TrustRelationship.type r) requestType
                                    && number_eq (TrustRelationship.target_entity_id r)
                                                 (wallet_id w))
                          (filter (fun r => number_eq
                                              (TrustRelationship.originator_entity_id r)
                                              (_id this))
                                  (entity_trust db)) = true).
      { apply existsb_exists. exists r. split.
        - apply filter_In. split; [assumption | apply number_eq_true; assumption].
        - apply andb_true_iff. split;
            [apply string_eq_true | apply number_eq_true]; assumption. }
      rewrite Ht in E. discriminate E.
Qed.

Lemma requestTrust_refused_iff_type_matches_witness :
  Wallet.requestTrustFromAWallet Sample.request_types false Sample.wallet1
                                 "send" "bob" Scenario.typed_relationship
  = (Scenario.typed_relationship, Throw (Forbidden "The trust requested has existed")).
Proof.
  apply (requestTrust_refused_iff_type_matches
           Sample.request_types false Sample.wallet1 "send" "bob"
           Scenario.typed_relationship Sample.wallet2
           (or_introl eq_refl) eq_refl eq_refl).
  - intros r [<-|[]] _. simpl. split; [right|]; discriminate.
  - eexists. simpl. split; [left; reflexivity|]. repeat split.
Defined.

(** X10: asking for trust grants none.  After a request that succeeds, the
    trusted relationships are those of before, for every wallet, pair and
    type, so [checkTrust] decides as it did. *)
Theorem requestTrust_grants_nothing
        (types : TrustRelationship.enumeration) (b : bool) (this : Wallet)
        (requestType targetWalletName : string) (db db' : DB)
        (result : option TrustRelationship.row) :
  Wallet.requestTrustFromAWallet types b this requestType targetWalletName db
  = (db', Return result) ->
  forall self source target trustType,
    trusted_relationship_exists db' self source target trustType
    <-> trusted_relationship_exists db self source target trustType.
Proof.
  intros Hrun self source target trustType.
  destruct (requestTrustFromAWallet_success _ _ _ _ _ _ _ _ Hrun)
    as (w & _ & _ & _ & _ & Hcreate).
  rewrite create_run in Hcreate. inversion Hcreate; subst; clear Hcreate.
  unfold trusted_relationship_exists. simpl. split.
  - intros (r & Hin & H). apply in_app_or in Hin. destruct Hin as [Hin|[<-|[]]].
    + exists r. auto.
    + destruct H as (_ & Hs & _). discriminate Hs.
  - intros (r & Hin & H). exists r. split; [apply in_or_app; left; assumption | exact H].
Qed.

Lemma requestTrust_grants_nothing_witness :
  ~ trusted_relationship_exists
      (fst (Wallet.requestTrustFromAWallet Sample.request_types true Sample.wallet1
                                           "send" "bob" Sample.empty))
      1 1 2 "send".
Proof.
  intros Hex.
  apply (requestTrust_grants_nothing Sample.request_types true Sample.wallet1
           "send" "bob" Sample.empty _ _ eq_refl) in Hex.
  destruct Hex as (r & [] & _).
Defined.

(** ** What accept, decline and cancel write *)

Lemma first_with_id_sound {R : Type} (id_of : R -> Z) (i : Z) (table : list R) (r : R) :
  BaseRepository.first_with_id id_of i table = Some r -> In r table /\ id_of r = i.
Proof.
  induction table as [|x rest IH]; simpl; [discriminate|].
  destruct (Z.eqb_spec (id_of x) i) as [E|E].
  - intros [= ->]. auto.
  - intros H. destruct (IH H). auto.
Qed.

Lemma reduce_by_id_sound (i : Z) (rows : list TrustRelationship.row)
      (r : TrustRelationship.row) :
  Wallet.reduce_by_id i rows = Some r -> In r rows /\ TrustRelationship.id r = i.
Proof.
  induction rows as [|x rest IH]; [discriminate|].
  rewrite reduce_by_id_cons.
  destruct (Wallet.reduce_by_id i rest) as [r'|].
  - intros [= ->]. destruct (IH eq_refl). split; [right|]; assumption.
  - destruct (Z.eqb_spec (TrustRelationship.id x) i) as [E|E]; [|discriminate].
    intros [= ->]. split; [left; reflexivity | assumption].
Qed.

(** Rows of a table with unique ids are equal when their ids are. *)
Lemma same_id_same_row {R : Type} (id_of : R -> Z) (table : list R) (x y : R) :
  NoDup (map id_of table) -> In x table -> In y table -> id_of x = id_of y -> x = y.
Proof.
  intros Hnd Hx Hy E.
  pose proof (first_with_id_unique id_of table x Hnd Hx) as H1.
  pose proof (first_with_id_unique id_of table y Hnd Hy) as H2.
  rewrite E in H1. rewrite H1 in H2. injection H2 as ->. reflexivity.
Qed.

Lemma accept_decline_run (this : Wallet) (i : Z) (db : DB) :
  (Wallet.acceptTrustRequestSentToMe this i db
   = match Wallet.reduce_by_id i
             (filter (fun r => number_eq (TrustRelationship.target_entity_id r) (_id this))
                     (entity_trust db)) with
     | Some r => (relationship_moved db r TrustRelationship.trusted, Return tt)
     | None => (db, Throw (Forbidden "Have no permission to accept this relationship"))
     end)
  /\ (Wallet.declineTrustRequestSentToMe this i db
      = match Wallet.reduce_by_id i
                (filter (fun r => number_eq (TrustRelationship.target_entity_id r)
                                            (_id this))
                        (entity_trust db)) with
        | Some r => (relationship_moved db r TrustRelationship.canceled_by_target,
                     Return tt)
        | None => (db, Throw (Forbidden "Have no permission to decline this relationship"))
        end).
Proof.
  unfold Wallet.acceptTrustRequestSentToMe, Wallet.declineTrustRequestSentToMe,
    Wallet.getTrustRelationshipsTargeted, TrustRepository.getByTargetId, bind, query.
  split; destruct (Wallet.reduce_by_id i _); reflexivity.
Qed.

Lemma cancel_run (this : Wallet) (i : Z) (db : DB) :
  Wallet.cancelTrustRequestSentToMe this i db
  = match BaseRepository.first_with_id TrustRelationship.id i (entity_trust db) with
    | Some r =>
        if number_eq (TrustRelationship.originator_entity_id r) (_id this) then
          (relationship_moved db r TrustRelationship.cancelled_by_originator, Return tt)
        else (db, Throw (Forbidden "Have no permission to cancel this relationship"))
    | None => (db, Throw (NotFound "Not found"))
    end.
Proof.
  unfold Wallet.cancelTrustRequestSentToMe, TrustRepository.getById,
    BaseRepository.getById, bind, query.
  destruct (BaseRepository.first_with_id _ i _) as [r|]; [|reflexivity].
  simpl. destruct (number_eq _ _); reflexivity.
Qed.

(** The database after one of the three operations: as before, or with one
    stored relationship moved to another state. *)
Lemma trust_operation_moves (this : Wallet) (i : Z) (db : DB) (operation : M unit) :
  In operation [Wallet.acceptTrustRequestSentToMe this i;
                Wallet.declineTrustRequestSentToMe this i;
                Wallet.cancelTrustRequestSentToMe this i] ->
  fst (operation db) = db
  \/ exists r s, In r (entity_trust db) /\ TrustRelationship.id r = i
                 /\ fst (operation db) = relationship_moved db r s.
Proof.
  destruct (accept_decline_run this i db) as [Ha Hd].
  intros [<-|[<-|[<-|[]]]].
  - rewrite Ha. destruct (Wallet.reduce_by_id i _) as [r|] eqn:E; [|left; reflexivity].
    apply reduce_by_id_sound in E. destruct E as [Hin Hid].
    apply filter_In in Hin. right. exists r. eexists. repeat split; tauto.
  - rewrite Hd. destruct (Wallet.reduce_by_id i _) as [r|] eqn:E; [|left; reflexivity].
    apply reduce_by_id_sound in E. destruct E as [Hin Hid].
    apply filter_In in Hin. right. exists r. eexists. repeat split; tauto.
  - rewrite cancel_run.
    destruct (BaseRepository.first_with_id _ i _) as [r|] eqn:E; [|left; reflexivity].
    apply first_with_id_sound in E. destruct E as [Hin Hid].
    destruct (number_eq _ _); [|left; reflexivity].
    right. exists r. eexists. repeat split; eassumption.
Qed.

Lemma moved_only_state (db : DB) (r : TrustRelationship.row)
      (s : TrustRelationship.ENTITY_TRUST_STATE_TYPE) :
  trust_ids_unique db -> In r (entity_trust db) ->
  map forget_state (entity_trust (relationship_moved db r s))
  = map forget_state (entity_trust db).
Proof.
  intros Hnd Hin. unfold relationship_moved, BaseRepository.replace_by_id. simpl.
  rewrite map_map. apply map_ext_in. intros x Hx.
  destruct (Z.eqb_spec (TrustRelationship.id x) (TrustRelationship.id r)) as [E|E];
    [|reflexivity].
  rewrite (same_id_same_row TrustRelationship.id _ x r Hnd Hx Hin E). reflexivity.
Qed.

(** X11: accept, decline and cancel of a trust request never add or delete
    a relationship and never write to the wallets or the transfers: up to
    the order of the rows, the ids in the table are the same afterwards, for
    every caller and id; and when the ids are unique the rows are, up to
    their order, the rows of before in every column but the state. *)
Theorem trust_operations_write_only_states (this : Wallet) (i : Z) (db : DB)
        (operation : M unit) :
  In operation [Wallet.acceptTrustRequestSentToMe this i;
                Wallet.declineTrustRequestSentToMe this i;
                Wallet.cancelTrustRequestSentToMe this i] ->
  Permutation (map TrustRelationship.id (entity_trust (fst (operation db))))
              (map TrustRelationship.id (entity_trust db))
  /\ wallet_table (fst (operation db)) = wallet_table db
  /\ transfer_table (fst (operation db)) = transfer_table db
  /\ (trust_ids_unique db ->
      Permutation (map forget_state (entity_trust (fst (operation db))))
                  (map forget_state (entity_trust db))).
Proof.
  intros Hop.
  destruct (trust_operation_moves this i db operation Hop)
    as [-> | (r & s & Hin & Hid & ->)].
  - repeat split; intros; apply Permutation_refl.
  - split; [|split; [|split]].
    + rewrite TrustRepository_update_ids. apply Permutation_refl.
    + reflexivity.
    + reflexivity.
    + intros Hnd. rewrite (moved_only_state db r s Hnd Hin). apply Permutation_refl.
Qed.

Lemma trust_operations_write_only_states_witness :
  Permutation
    (map forget_state
         (entity_trust (fst (Wallet.declineTrustRequestSentToMe Sample.wallet3 2
                               Scenario.two_relationships))))
    (map forget_state (entity_trust Scenario.two_relationships)).
Proof.
  apply (trust_operations_write_only_states Sample.wallet3 2 Scenario.two_relationships
           (Wallet.declineTrustRequestSentToMe Sample.wallet3 2)).
  - right. left. reflexivity.
  - unfold trust_ids_unique. simpl.
    repeat constructor; simpl; intuition discriminate.
Defined.

(** ** Granting and revoking trust *)

Lemma in_replace_by_id {R : Type} (id_of : R -> Z) (object x : R) (table : list R) :
  In x (BaseRepository.replace_by_id id_of object table) ->
  x = object \/ (In x table /\ id_of x <> id_of object).
Proof.
  unfold BaseRepository.replace_by_id. intros H.
  apply in_map_iff in H. destruct H as (y & Hy & Hin).
  destruct (Z.eqb_spec (id_of y) (id_of object)) as [E|E].
  - left. symmetry. assumption.
  - right. subst x. split; assumption.
Qed.

Lemma replaced_is_stored {R : Type} (id_of : R -> Z) (object r : R) (table : list R) :
  In r table -> id_of r = id_of object ->
  In object (BaseRepository.replace_by_id id_of object table).
Proof.
  intros Hin E. unfold BaseRepository.replace_by_id.
  apply in_map_iff. exists r. split; [|assumption].
  apply Z.eqb_eq in E. rewrite E. reflexivity.
Qed.

Lemma accept_run (this : Wallet) (db : DB) (r : TrustRelationship.row) :
  trust_ids_unique db -> In r (entity_trust db) ->
  TrustRelationship.target_entity_id r = Some (_id this) ->
  Wallet.acceptTrustRequestSentToMe this (TrustRelationship.id r) db
  = (relationship_moved db r TrustRelationship.trusted, Return tt)
  /\ Wallet.declineTrustRequestSentToMe this (TrustRelationship.id r) db
     = (relationship_moved db r TrustRelationship.canceled_by_target, Return tt).
Proof.
  intros Hnd Hin Ht.
  destruct (accept_decline_run this (TrustRelationship.id r) db) as [-> ->].
  rewrite (targeted_found this db r Hnd Hin Ht). split; reflexivity.
Qed.

(** X12: a request that the target accepts establishes trust.  When wallet
    [this] has asked the wallet named [targetWalletName] for a trust of type
    [requestType] and that wallet accepts the relationship created, the
    trust check of [this] for ([requestType], this, target) passes, and a
    transfer from [this] to the target returns without recording anything
    when the type is the one of [send]. *)
Theorem accepted_request_establishes_trust
        (types : TrustRelationship.enumeration) (b : bool) (this : Wallet)
        (requestType targetWalletName : string) (db db1 : DB)
        (created : TrustRelationship.row) :
  trust_ids_unique db ->
  trusted_rows_well_shaped db (_id this) ->
  Wallet.requestTrustFromAWallet types b this requestType targetWalletName db
  = (db1, Return (Some created)) ->
  exists targetWallet db2,
    WalletService.getByName targetWalletName db = (db, Return targetWallet)
    /\ Wallet.acceptTrustRequestSentToMe targetWallet (TrustRelationship.id created) db1
       = (db2, Return tt)
    /\ Wallet.checkTrust types this (Some requestType) this targetWallet db2
       = (db2, Return tt)
    /\ (TrustRelationship.property types "send" = Some requestType ->
        Wallet.transfer types this this targetWallet tt db2 = (db2, Return tt)).
Proof.
  intros Hnd Hshape Hrun.
  destruct (requestTrustFromAWallet_success _ _ _ _ _ _ _ _ Hrun)
    as (w & Hkey & _ & Hname & _ & Hcreate).
  rewrite create_run in Hcreate. inversion Hcreate; subst; clear Hcreate.
  set (created := TrustRepository.inserted_row
                    (BaseRepository.next_id TrustRelationship.id (entity_trust db))
                    (requested_object this requestType (new_Wallet (wallet_id w)))) in *.
  set (db1 := with_entity_trust db (entity_trust db ++ [created])) in *.
  set (target := new_Wallet (wallet_id w)).
  set (db2 := relationship_moved db1 created TrustRelationship.trusted).
  assert (Hkey' : In requestType (TrustRelationship.Object_keys types)).
  { apply existsb_exists in Hkey. destruct Hkey as (k & Hin & Hk).
    apply String.eqb_eq in Hk. subst k. assumption. }
  assert (Hnd1 : trust_ids_unique db1).
  { unfold trust_ids_unique, db1. simpl. rewrite map_app. simpl.
    apply unique_after_append; [exact Hnd | apply next_id_fresh]. }
  assert (Hin1 : In created (entity_trust db1)).
  { unfold db1. simpl. apply in_or_app. right. left. reflexivity. }
  assert (Hstored : In (TrustRelationship.set_state TrustRelationship.trusted created)
                       (entity_trust db2)).
  { unfold db2, relationship_moved. simpl.
    apply (replaced_is_stored TrustRelationship.id _ created); [exact Hin1 | reflexivity]. }
  assert (Hshape2 : trusted_rows_well_shaped db2 (_id this)).
  { intros r Hr Ho Hs. unfold db2, relationship_moved in Hr. simpl in Hr.
    apply in_replace_by_id in Hr. destruct Hr as [-> | [Hr Hid]].
    - repeat split; discriminate.
    - apply in_app_or in Hr. destruct Hr as [Hr | [<- | []]].
      + exact (Hshape r Hr Ho Hs).
      + exfalso. apply Hid. reflexivity. }
  assert (Hcheck : Wallet.checkTrust types this (Some requestType) this target db2
                   = (db2, Return tt)).
  { rewrite (checkTrust_run types this requestType this target db2 Hkey' Hshape2).
    assert (existsb (grants (Wallet.getId this) (Wallet.getId target) requestType)
                    (filter (fun r =>
                               number_eq (TrustRelationship.originator_entity_id r)
                                         (_id this)
                               && TrustRelationship.has_state r TrustRelationship.trusted)
                            (entity_trust db2)) = true) as ->; [|reflexivity].
    apply grants_exists.
    exists (TrustRelationship.set_state TrustRelationship.trusted created).
    split; [exact Hstored|]. repeat split. }
  exists target, db2. split; [|split; [|split]].
  - unfold WalletService.getByName, bind, query. rewrite Hname. reflexivity.
  - apply (proj1 (accept_run target db1 created Hnd1 Hin1 eq_refl)).
  - exact Hcheck.
  - intros Hsend. rewrite transfer_run, Hsend, Hcheck. reflexivity.
Qed.

Lemma accepted_request_establishes_trust_witness :
  exists db1 created db2,
    Wallet.requestTrustFromAWallet Sample.request_types true Sample.wallet1
                                   "send" "bob" Sample.empty
    = (db1, Return (Some created))
    /\ Wallet.acceptTrustRequestSentToMe Sample.wallet2 (TrustRelationship.id created) db1
       = (db2, Return tt)
    /\ Wallet.transfer Sample.request_types Sample.wallet1 Sample.wallet1 Sample.wallet2
                       tt db2
       = (db2, Return tt).
Proof.
  assert (Hnd : trust_ids_unique Sample.empty) by constructor.
  assert (Hshape : trusted_rows_well_shaped Sample.empty 1) by (intros r []).
  destruct (accepted_request_establishes_trust
              Sample.request_types true Sample.wallet1 "send" "bob" Sample.empty
              _ _ Hnd Hshape eq_refl)
    as (targetWallet & db2 & Hname & Haccept & _ & Htransfer).
  injection Hname as <-.
  eexists. eexists. exists db2. split; [reflexivity|].
  split; [exact Haccept | exact (Htransfer eq_refl)].
Defined.

Lemma moved_not_trusted (db : DB) (r : TrustRelationship.row)
      (s : TrustRelationship.ENTITY_TRUST_STATE_TYPE) (self source target : Z)
      (requestType : string) :
  trust_ids_unique db -> In r (entity_trust db) -> s <> TrustRelationship.trusted ->
  (trusted_relationship_exists (relationship_moved db r s) self source target requestType
   <-> exists r', In r' (entity_trust db)
                  /\ TrustRelationship.id r' <> TrustRelationship.id r
                  /\ grants_trust self source target requestType r').
Proof.
  intros Hnd Hin Hs. unfold trusted_relationship_exists, grants_trust, relationship_moved.
  simpl. split.
  - intros (x & Hx & H). apply in_replace_by_id in Hx. destruct Hx as [-> | [Hx Hid]].
    + destruct H as (_ & Hst & _). simpl in Hst. congruence.
    + exists x. auto.
  - intros (x & Hx & Hid & H). exists x. split; [|exact H].
    unfold BaseRepository.replace_by_id. apply in_map_iff. exists x.
    split; [|assumption].
    apply Z.eqb_neq in Hid. simpl. rewrite Hid. reflexivity.
Qed.

(** X13: declining or cancelling revokes the trust of the relationship and
    grants none.  After the target has declined a relationship, or its
    originator has cancelled it, a trusted relationship exists for a wallet,
    pair and type exactly when another relationship of the table granted it
    before. *)
Theorem decline_and_cancel_revoke (this : Wallet) (db : DB) (r : TrustRelationship.row)
        (self source target : Z) (requestType : string) :
  trust_ids_unique db ->
  In r (entity_trust db) ->
  (TrustRelationship.target_entity_id r = Some (_id this) ->
   (trusted_relationship_exists
      (fst (Wallet.declineTrustRequestSentToMe this (TrustRelationship.id r) db))
      self source target requestType
    <-> exists r', In r' (entity_trust db)
                   /\ TrustRelationship.id r' <> TrustRelationship.id r
                   /\ grants_trust self source target requestType r'))
  /\ (TrustRelationship.originator_entity_id r = Some (_id this) ->
      (trusted_relationship_exists
         (fst (Wallet.cancelTrustRequestSentToMe this (TrustRelationship.id r) db))
         self source target requestType
       <-> exists r', In r' (entity_trust db)
                      /\ TrustRelationship.id r' <> TrustRelationship.id r
                      /\ grants_trust self source target requestType r')).
Proof.
  intros Hnd Hin. split.
  - intros Ht. rewrite (proj2 (accept_run this db r Hnd Hin Ht)). simpl.
    apply moved_not_trusted; [assumption | assumption | discriminate].
  - intros Ho. rewrite cancel_run.
    rewrite (first_with_id_unique TrustRelationship.id _ r Hnd Hin).
    apply number_eq_true in Ho. rewrite Ho. simpl.
    apply moved_not_trusted; [assumption | assumption | discriminate].
Qed.

Lemma decline_and_cancel_revoke_witness :
  ~ trusted_relationship_exists
      (fst (Wallet.cancelTrustRequestSentToMe Sample.wallet1 1
              (Sample.with_relationship TrustRelationship.trusted)))
      1 1 2 "send".
Proof.
  intros Hex.
  apply (proj2 (decline_and_cancel_revoke
                  Sample.wallet1 (Sample.with_relationship TrustRelationship.trusted)
                  (Sample.relationship TrustRelationship.trusted) 1 1 2 "send"
                  (sample_trust_ids_unique _) (or_introl eq_refl))
           eq_refl) in Hex.
  destruct Hex as (r' & [<-|[]] & Hid & _). apply Hid. reflexivity.
Defined.

(** ** What the transfer operations write *)

Lemma transfer_operation_run (i : Z) (db : DB) (k : Transfer.row -> M unit) :
  bind (TransferRepository.getById i) k db
  = match BaseRepository.first_with_id Transfer.id i (transfer_table db) with
    | Some t => k t db
    | None => (db, Throw (NotFound "Not found"))
    end.
Proof.
  unfold TransferRepository.getById, BaseRepository.getById, bind, query.
  destruct (BaseRepository.first_with_id Transfer.id i (transfer_table db));
    reflexivity.
Qed.

Lemma transfer_operation_moves (this : Wallet) (i : Z) (db : DB) (operation : M unit) :
  In operation [Wallet.acceptTransfer this i; Wallet.declineTransfer this i;
                Wallet.cancelTransfer this i; Wallet.fulfillTransfer this i] ->
  fst (operation db) = db
  \/ exists t s, In t (transfer_table db) /\ Transfer.id t = i
                 /\ fst (operation db) = transfer_moved db t s.
Proof.
  unfold Wallet.acceptTransfer, Wallet.declineTransfer, Wallet.cancelTransfer,
    Wallet.fulfillTransfer.
  intros [<-|[<-|[<-|[<-|[]]]]]; rewrite transfer_operation_run;
    (destruct (BaseRepository.first_with_id Transfer.id i (transfer_table db))
      as [t|] eqn:E; [|left; reflexivity]);
    apply first_with_id_sound in E; destruct E as [Hin Hid].
  - right. exists t. eexists. repeat split; eassumption.
  - right. exists t. eexists. repeat split; eassumption.
  - right. exists t. eexists. repeat split; eassumption.
  - destruct (negb (Z.eqb (Transfer.source_entity_id t) (_id this)));
      [left; reflexivity|].
    destruct (negb (Transfer.state_eqb (Transfer.state t) Transfer.requested));
      [left; reflexivity|].
    right. exists t. eexists. repeat split; eassumption.
Qed.

Lemma transfer_moved_only_state (db : DB) (t : Transfer.row) (s : Transfer.STATE) :
  transfer_ids_unique db -> In t (transfer_table db) ->
  map forget_transfer_state (transfer_table (transfer_moved db t s))
  = map forget_transfer_state (transfer_table db).
Proof.
  intros Hnd Hin. unfold transfer_moved, BaseRepository.replace_by_id. simpl.
  rewrite map_map. apply map_ext_in. intros x Hx.
  destruct (Z.eqb_spec (Transfer.id x) (Transfer.id t)) as [E|E]; [|reflexivity].
  rewrite (same_id_same_row Transfer.id _ x t Hnd Hx Hin E). reflexivity.
Qed.

(** X14: accepting, declining, cancelling and fulfilling a transfer never
    add or delete a transfer and never write to the wallets or the trust
    relationships: the ids in the transfer table are the same afterwards, for
    every caller and id; and when the ids are unique no column but the state
    changes. *)
Theorem transfer_operations_write_only_states (this : Wallet) (i : Z) (db : DB)
        (operation : M unit) :
  In operation [Wallet.acceptTransfer this i; Wallet.declineTransfer this i;
                Wallet.cancelTransfer this i; Wallet.fulfillTransfer this i] ->
  map Transfer.id (transfer_table (fst (operation db)))
  = map Transfer.id (transfer_table db)
  /\ wallet_table (fst (operation db)) = wallet_table db
  /\ entity_trust (fst (operation db)) = entity_trust db
  /\ (transfer_ids_unique db ->
      map forget_transfer_state (transfer_table (fst (operation db)))
      = map forget_transfer_state (transfer_table db)).
Proof.
  intros Hop.
  destruct (transfer_operation_moves this i db operation Hop)
    as [-> | (t & s & Hin & Hid & ->)].
  - repeat split; reflexivity.
  - repeat split.
    + apply TransferRepository_update_ids.
    + intros Hnd. apply transfer_moved_only_state; assumption.
Qed.

Lemma transfer_operations_write_only_states_witness :
  map forget_transfer_state
      (transfer_table (fst (Wallet.acceptTransfer Sample.wallet2 1
                              (Sample.with_transfer Transfer.cancelled))))
  = map forget_transfer_state (transfer_table (Sample.with_transfer Transfer.cancelled)).
Proof.
  apply (transfer_operations_write_only_states Sample.wallet2 1
           (Sample.with_transfer Transfer.cancelled)
           (Wallet.acceptTransfer Sample.wallet2 1)).
  - left. reflexivity.
  - apply sample_transfer_ids_unique.
Defined.


Lemma recorded_transfer_stored (this sender receiver : Wallet) (s : Transfer.STATE)
      (db : DB) :
  transfer_ids_unique db ->
  transfer_ids_unique (with_recorded_transfer this sender receiver s db)
  /\ In (recorded_transfer this sender receiver s db)
        (transfer_table (with_recorded_transfer this sender receiver s db)).
Proof.
  intros Hnd. unfold with_recorded_transfer, transfer_ids_unique. simpl. split.
  - rewrite map_app. simpl. apply unique_after_append; [exact Hnd | apply next_id_fresh].
  - apply in_or_app. right. left. reflexivity.
Qed.



(** ** The trust repository *)

(** X16: a relationship created by [TrustRepository.create] is what the
    call returns, with the columns of the object under a new id, and the
    queries find it: it comes last in [getByOriginatorId] of its originator
    and in [getByTargetId] of its target, it is in no other answer of these
    queries, and [getTrustedByOriginatorId] answers as before. *)
Theorem created_relationship_is_found (o : TrustRepository.object) (db : DB) :
  exists r db1,
    TrustRepository.create o db = (db1, Return (Some r))
    /\ TrustRepository.get db1 = (db1, Return (entity_trust db ++ [r])%list)
    /\ ~ In (TrustRelationship.id r) (map TrustRelationship.id (entity_trust db))
    /\ TrustRelationship.request_type r = TrustRepository.o_request_type o
    /\ TrustRelationship.actor_entity_id r = TrustRepository.o_actor_entity_id o
    /\ TrustRelationship.originator_entity_id r = TrustRepository.o_originator_entity_id o
    /\ TrustRelationship.target_entity_id r = TrustRepository.o_target_entity_id o
    /\ (forall i,
           snd (TrustRepository.getByOriginatorId i db1)
           = Return (filter (fun x => number_eq
                                        (TrustRelationship.originator_entity_id x) i)
                            (entity_trust db)
                     ++ (if number_eq (TrustRepository.o_originator_entity_id o) i
                         then [r] else []))%list)
    /\ (forall i,
           snd (TrustRepository.getByTargetId i db1)
           = Return (filter (fun x => number_eq (TrustRelationship.target_entity_id x) i)
                            (entity_trust db)
                     ++ (if number_eq (TrustRepository.o_target_entity_id o) i
                         then [r] else []))%list)
    /\ (forall i,
           snd (TrustRepository.getTrustedByOriginatorId i db1)
           = snd (TrustRepository.getTrustedByOriginatorId i db)).
Proof.
  eexists. eexists. split; [apply create_run|].
  split; [reflexivity|]. split; [apply next_id_fresh|].
  repeat split.
  - intros i. unfold TrustRepository.getByOriginatorId, query. simpl.
    rewrite filter_app. simpl.
    destruct (number_eq (TrustRepository.o_originator_entity_id o) i); reflexivity.
  - intros i. unfold TrustRepository.getByTargetId, query. simpl.
    rewrite filter_app. simpl.
    destruct (number_eq (TrustRepository.o_target_entity_id o) i); reflexivity.
  - intros i. unfold TrustRepository.getTrustedByOriginatorId, query. simpl.
    rewrite filter_app. simpl. rewrite andb_false_r, app_nil_r. reflexivity.
Qed.

(** X17: [TrustRepository.update] addresses rows by id and reports
    nothing.  An object whose id no row has leaves the table as it was,
    without an error; otherwise the object is stored under its id afterwards
    and is returned by [getByTargetId] of its target. *)
Theorem update_addresses_rows_by_id (object : TrustRelationship.row) (db : DB) :
  ((forall r, In r (entity_trust db) ->
              TrustRelationship.id r <> TrustRelationship.id object) ->
   TrustRepository.update object db = (db, Return tt))
  /\ (forall r,
         In r (entity_trust db) ->
         TrustRelationship.id r = TrustRelationship.id object ->
         TrustRepository.getById (TrustRelationship.id object)
                                 (fst (TrustRepository.update object db))
         = (fst (TrustRepository.update object db), Return object)
         /\ forall target,
              TrustRelationship.target_entity_id object = Some target ->
              exists rows,
                snd (TrustRepository.getByTargetId target
                       (fst (TrustRepository.update object db)))
                = Return rows
                /\ In object rows).
Proof.
  split.
  - intros H. unfold TrustRepository.update, modify.
    assert (BaseRepository.replace_by_id TrustRelationship.id object (entity_trust db)
            = entity_trust db) as ->.
    { unfold BaseRepository.replace_by_id.
      rewrite <- (map_id (entity_trust db)) at 2.
      apply map_ext_in. intros r Hr.
      specialize (H r Hr). apply Z.eqb_neq in H. rewrite H. reflexivity. }
    destruct db; reflexivity.
  - intros r Hin Hid. split.
    + unfold TrustRepository.getById, BaseRepository.getById, bind, query.
      unfold TrustRepository.update, modify. simpl.
      rewrite (first_with_id_replaced TrustRelationship.id object r); auto.
    + intros target Ht. eexists. split; [reflexivity|].
      unfold TrustRepository.update, modify. simpl.
      apply filter_In. split.
      * apply (replaced_is_stored TrustRelationship.id object r); assumption.
      * apply number_eq_true. assumption.
Qed.

Lemma update_addresses_rows_by_id_witness :
  TrustRepository.update (Sample.relationship TrustRelationship.trusted) Sample.empty
  = (Sample.empty, Return tt)
  /\ TrustRepository.getById 1
       (fst (TrustRepository.update (Sample.relationship TrustRelationship.trusted)
               (Sample.with_relationship TrustRelationship.requested)))
     = (Sample.with_relationship TrustRelationship.trusted,
        Return (Sample.relationship TrustRelationship.trusted)).
Proof.
  split.
  - apply (proj1 (update_addresses_rows_by_id
                    (Sample.relationship TrustRelationship.trusted) Sample.empty)).
    intros r [].
  - apply (proj2 (update_addresses_rows_by_id
                    (Sample.relationship TrustRelationship.trusted)
                    (Sample.with_relationship TrustRelationship.requested))
             (Sample.relationship TrustRelationship.requested)
             (or_introl eq_refl) eq_refl).
Defined.

(** ** Histories *)

Lemma request_moves (types : TrustRelationship.enumeration) (b : bool) (this : Wallet)
      (requestType targetWalletName : string) (db : DB) :
  fst (Wallet.requestTrustFromAWallet types b this requestType targetWalletName db) = db
  \/ exists target,
       fst (Wallet.requestTrustFromAWallet types b this requestType targetWalletName db)
       = with_entity_trust db
           (entity_trust db
            ++ [TrustRepository.inserted_row
                  (BaseRepository.next_id TrustRelationship.id (entity_trust db))
                  (requested_object this requestType target)]).
Proof.
  rewrite requestTrustFromAWallet_run.
  destruct (negb (existsb (String.eqb requestType) _)); [left; reflexivity|].
  destruct (negb (expect.test_nonspace targetWalletName)); [left; reflexivity|].
  destruct (WalletService.first_with_name targetWalletName (wallet_table db)) as [w|];
    [|left; reflexivity].
  destruct (Array_some_outcome _ _) as [[|]|e];
    [left; reflexivity | | left; reflexivity].
  right. exists (new_Wallet (wallet_id w)). rewrite create_run. reflexivity.
Qed.

Lemma transfer_moves (types : TrustRelationship.enumeration) {Tokens : Type}
      (this sender receiver : Wallet) (tokens : Tokens) (db : DB) :
  fst (Wallet.transfer types this sender receiver tokens db) = db
  \/ exists s,
       fst (Wallet.transfer types this sender receiver tokens db)
       = with_recorded_transfer this sender receiver s db.
Proof.
  rewrite transfer_run.
  destruct (snd (Wallet.checkTrust types this _ sender receiver db)) as [[]|e];
    [left; reflexivity|].
  destruct (isHttpErrorWithCode 403 e); [|left; reflexivity].
  destruct (Z.eqb (Wallet.getId sender) (_id this)); [right; eexists; reflexivity|].
  destruct (Z.eqb (Wallet.getId receiver) (_id this));
    [right; eexists; reflexivity | left; reflexivity].
Qed.

Lemma consistent_requested (db : DB) (this : Wallet) (requestType : string)
      (target : Wallet) :
  consistent db ->
  consistent
    (with_entity_trust db
       (entity_trust db
        ++ [TrustRepository.inserted_row
              (BaseRepository.next_id TrustRelationship.id (entity_trust db))
              (requested_object this requestType target)])).
Proof.
  intros (Ht & Hx & Hs). unfold consistent, trust_ids_unique, transfer_ids_unique,
    all_well_shaped. simpl. repeat split.
  - rewrite map_app. simpl. apply unique_after_append; [exact Ht | apply next_id_fresh].
  - exact Hx.
  - apply in_app_or in H. destruct H as [H | [<- | []]]; [apply (Hs r H) | discriminate].
  - apply in_app_or in H. destruct H as [H | [<- | []]]; [apply (Hs r H) | discriminate].
  - apply in_app_or in H. destruct H as [H | [<- | []]]; [apply (Hs r H) | discriminate].
Qed.

Lemma consistent_moved (db : DB) (r : TrustRelationship.row)
      (s : TrustRelationship.ENTITY_TRUST_STATE_TYPE) :
  consistent db -> In r (entity_trust db) -> consistent (relationship_moved db r s).
Proof.
  intros (Ht & Hx & Hs) Hin. unfold consistent. split; [|split].
  - unfold trust_ids_unique. rewrite TrustRepository_update_ids. exact Ht.
  - exact Hx.
  - intros x Hx'. unfold relationship_moved in Hx'. simpl in Hx'.
    apply in_replace_by_id in Hx'. destruct Hx' as [-> | [Hx' _]].
    + exact (Hs r Hin).
    + exact (Hs x Hx').
Qed.

Lemma consistent_recorded (db : DB) (this sender receiver : Wallet) (s : Transfer.STATE) :
  consistent db -> consistent (with_recorded_transfer this sender receiver s db).
Proof.
  intros (Ht & Hx & Hs). unfold consistent. split; [exact Ht|]. split; [|exact Hs].
  apply (recorded_transfer_stored this sender receiver s db Hx).
Qed.

Lemma consistent_transfer_moved (db : DB) (t : Transfer.row) (s : Transfer.STATE) :
  consistent db -> consistent (transfer_moved db t s).
Proof.
  intros (Ht & Hx & Hs). unfold consistent. split; [exact Ht|]. split; [|exact Hs].
  unfold transfer_ids_unique. rewrite TransferRepository_update_ids. exact Hx.
Qed.

Lemma perform_keeps (types : TrustRelationship.enumeration) (b : bool) (call : Call)
      (db : DB) :
  consistent db ->
  consistent (perform types b call db)
  /\ wallet_table (perform types b call db) = wallet_table db.
Proof.
  intros Hc. destruct call as [this ty name | this i | this i | this i
                               | this sender receiver
                               | this i | this i | this i | this i]; simpl.
  - destruct (request_moves types b this ty name db) as [-> | [target ->]].
    + split; [exact Hc | reflexivity].
    + split; [apply consistent_requested; exact Hc | reflexivity].
  - destruct (trust_operation_moves this i db (Wallet.acceptTrustRequestSentToMe this i))
      as [-> | (r & s & Hin & _ & ->)]; [left; reflexivity | | ];
      (split; [try exact Hc; apply consistent_moved; assumption | reflexivity]).
  - destruct (trust_operation_moves this i db (Wallet.declineTrustRequestSentToMe this i))
      as [-> | (r & s & Hin & _ & ->)]; [right; left; reflexivity | | ];
      (split; [try exact Hc; apply consistent_moved; assumption | reflexivity]).
  - destruct (trust_operation_moves this i db (Wallet.cancelTrustRequestSentToMe this i))
      as [-> | (r & s & Hin & _ & ->)]; [right; right; left; reflexivity | | ];
      (split; [try exact Hc; apply consistent_moved; assumption | reflexivity]).
  - destruct (transfer_moves types this sender receiver tt db) as [-> | [s ->]].
    + split; [exact Hc | reflexivity].
    + split; [apply consistent_recorded; exact Hc | reflexivity].
  - destruct (transfer_operation_moves this i db (Wallet.acceptTransfer this i))
      as [-> | (t & s & _ & _ & ->)]; [left; reflexivity | | ];
      (split; [try exact Hc; apply consistent_transfer_moved; assumption | reflexivity]).
  - destruct (transfer_operation_moves this i db (Wallet.declineTransfer this i))
      as [-> | (t & s & _ & _ & ->)]; [right; left; reflexivity | | ];
      (split; [try exact Hc; apply consistent_transfer_moved; assumption | reflexivity]).
  - destruct (transfer_operation_moves this i db (Wallet.cancelTransfer this i))
      as [-> | (t & s & _ & _ & ->)]; [right; right; left; reflexivity | | ];
      (split; [try exact Hc; apply consistent_transfer_moved; assumption | reflexivity]).
  - destruct (transfer_operation_moves this i db (Wallet.fulfillTransfer this i))
      as [-> | (t & s & _ & _ & ->)]; [right; right; right; left; reflexivity | | ];
      (split; [try exact Hc; apply consistent_transfer_moved; assumption | reflexivity]).
Qed.

Lemma perform_all_keeps (types : TrustRelationship.enumeration) (b : bool)
      (calls : list Call) (db : DB) :
  consistent db ->
  consistent (perform_all types b calls db)
  /\ wallet_table (perform_all types b calls db) = wallet_table db.
Proof.
  unfold perform_all. revert db.
  induction calls as [|call rest IH]; intros db Hc; simpl; [split; [exact Hc | reflexivity]|].
  destruct (perform_keeps types b call db Hc) as [Hc' Hw].
  destruct (IH _ Hc') as [Hc'' Hw'].
  split; [exact Hc'' | rewrite Hw', Hw; reflexivity].
Qed.

(** X18: every history of calls of the writing methods of [Wallet], with
    whatever arguments and whether the calls return or throw, keeps the ids
    of the relationships and of the transfers unique and the relationships
    well shaped, and never writes to the wallet table. *)
Theorem histories_keep_consistency
        (types : TrustRelationship.enumeration) (b : bool) (calls : list Call) (db : DB) :
  consistent db ->
  consistent (perform_all types b calls db)
  /\ wallet_table (perform_all types b calls db) = wallet_table db.
Proof.
  intros Hc. destruct (perform_all_keeps types b calls db Hc) as [Hk Hw].
  split; [exact Hk | exact Hw].
Qed.

Lemma sample_empty_consistent : consistent Sample.empty.
Proof.
  split; [constructor | split; [constructor | intros r []]].
Qed.

Lemma histories_keep_consistency_witness :
  consistent
    (perform_all Sample.request_types true
       [CallRequestTrust Sample.wallet1 "send" "bob";
        CallAcceptTrust Sample.wallet2 1;
        CallTransfer Sample.wallet1 Sample.wallet1 Sample.wallet3;
        CallAcceptTransfer Sample.wallet3 1;
        CallCancelTrust Sample.wallet1 1]
       Sample.empty).
Proof.
  apply (histories_keep_consistency Sample.request_types true _ Sample.empty
           sample_empty_consistent).
Defined.

(** X19: in a database that such histories have produced from a
    consistent one, the trust check for a type of the enumeration never ends
    with an assertion failure: it passes when the trusted relationship
    exists and fails with Forbidden when it does not. *)
Theorem checkTrust_decides_after_any_history
        (types : TrustRelationship.enumeration) (b : bool) (calls : list Call) (db : DB)
        (this source target : Wallet) (requestType : string) :
  consistent db ->
  In requestType (TrustRelationship.Object_keys types) ->
  (trusted_relationship_exists (perform_all types b calls db) (_id this)
                               (Wallet.getId source) (Wallet.getId target) requestType
   /\ Wallet.checkTrust types this (Some requestType) source target
                        (perform_all types b calls db)
      = (perform_all types b calls db, Return tt))
  \/ (~ trusted_relationship_exists (perform_all types b calls db) (_id this)
                                    (Wallet.getId source) (Wallet.getId target) requestType
      /\ Wallet.checkTrust types this (Some requestType) source target
                           (perform_all types b calls db)
         = (perform_all types b calls db,
            Throw (Forbidden "Have no permission to do this action"))).
Proof.
  intros Hc Hkey.
  destruct (perform_all_keeps types b calls db Hc) as ((_ & _ & Hs) & _).
  assert (Hshape : trusted_rows_well_shaped (perform_all types b calls db) (_id this)).
  { intros r Hr _ _. exact (Hs r Hr). }
  rewrite (checkTrust_run types this requestType source target _ Hkey Hshape).
  pose proof (grants_exists (perform_all types b calls db) (_id this)
                            (Wallet.getId source) (Wallet.getId target) requestType) as Hex.
  destruct (existsb _ _).
  - left. split; [apply Hex; reflexivity | reflexivity].
  - right. split; [intros H; apply Hex in H; discriminate | reflexivity].
Qed.

Lemma checkTrust_decides_after_any_history_witness :
  Wallet.checkTrust Sample.request_types Sample.wallet1 (Some "send")
                    Sample.wallet1 Sample.wallet2
                    (perform_all Sample.request_types true
                       [CallRequestTrust Sample.wallet1 "send" "bob";
                        CallAcceptTrust Sample.wallet2 1]
                       Sample.empty)
  = (perform_all Sample.request_types true
       [CallRequestTrust Sample.wallet1 "send" "bob";
        CallAcceptTrust Sample.wallet2 1]
       Sample.empty,
     Return tt).
Proof.
  destruct (checkTrust_decides_after_any_history
              Sample.request_types true
              [CallRequestTrust Sample.wallet1 "send" "bob";
               CallAcceptTrust Sample.wallet2 1]
              Sample.empty Sample.wallet1 Sample.wallet1 Sample.wallet2 "send"
              sample_empty_consistent (or_introl eq_refl))
    as [[_ Hpass] | [Hno _]].
  - exact Hpass.
  - exfalso. apply Hno. eexists. split; [left; reflexivity|]. repeat split.
Defined.

(** ** The last call wins *)

Lemma cancel_found_run (this : Wallet) (db : DB) (r : TrustRelationship.row) :
  trust_ids_unique db -> In r (entity_trust db) ->
  TrustRelationship.originator_entity_id r = Some (_id this) ->
  Wallet.cancelTrustRequestSentToMe this (TrustRelationship.id r) db
  = (relationship_moved db r TrustRelationship.cancelled_by_originator, Return tt).
Proof.
  intros Hnd Hin Ho. rewrite cancel_run.
  rewrite (first_with_id_unique TrustRelationship.id _ r Hnd Hin).
  apply number_eq_true in Ho. rewrite Ho. reflexivity.
Qed.

Lemma moved_twice (db : DB) (r : TrustRelationship.row)
      (s1 s2 : TrustRelationship.ENTITY_TRUST_STATE_TYPE) :
  relationship_moved (relationship_moved db r s1) (TrustRelationship.set_state s1 r) s2
  = relationship_moved db r s2.
Proof.
  unfold relationship_moved, with_entity_trust, BaseRepository.replace_by_id. simpl.
  f_equal. rewrite map_map. apply map_ext. intros x.
  destruct (Z.eqb (TrustRelationship.id x) (TrustRelationship.id r)) eqn:E; simpl.
  - rewrite Z.eqb_refl. reflexivity.
  - rewrite E. reflexivity.
Qed.

Lemma trust_call_run (types : TrustRelationship.enumeration) (b : bool)
      (target originator : Wallet) (db : DB) (r : TrustRelationship.row) (call : Call) :
  trust_ids_unique db -> In r (entity_trust db) ->
  TrustRelationship.target_entity_id r = Some (_id target) ->
  TrustRelationship.originator_entity_id r = Some (_id originator) ->
  In call [CallAcceptTrust target (TrustRelationship.id r);
           CallDeclineTrust target (TrustRelationship.id r);
           CallCancelTrust originator (TrustRelationship.id r)] ->
  exists s, perform types b call db = relationship_moved db r s
            /\ forall db' r',
                 trust_ids_unique db' -> In r' (entity_trust db') ->
                 TrustRelationship.id r' = TrustRelationship.id r ->
                 TrustRelationship.target_entity_id r' = Some (_id target) ->
                 TrustRelationship.originator_entity_id r' = Some (_id originator) ->
                 perform types b call db' = relationship_moved db' r' s.
Proof.
  intros Hnd Hin Ht Ho [<-|[<-|[<-|[]]]]; simpl.
  - exists TrustRelationship.trusted. split.
    + rewrite (proj1 (accept_run target db r Hnd Hin Ht)). reflexivity.
    + intros db' r' Hnd' Hin' <- Ht' _.
      rewrite (proj1 (accept_run target db' r' Hnd' Hin' Ht')). reflexivity.
  - exists TrustRelationship.canceled_by_target. split.
    + rewrite (proj2 (accept_run target db r Hnd Hin Ht)). reflexivity.
    + intros db' r' Hnd' Hin' <- Ht' _.
      rewrite (proj2 (accept_run target db' r' Hnd' Hin' Ht')). reflexivity.
  - exists TrustRelationship.cancelled_by_originator. split.
    + rewrite (cancel_found_run originator db r Hnd Hin Ho). reflexivity.
    + intros db' r' Hnd' Hin' <- _ Ho'.
      rewrite (cancel_found_run originator db' r' Hnd' Hin' Ho'). reflexivity.
Qed.

(** X20: of two calls on the same relationship, the last one wins.  For a
    relationship that wallet [target] may accept and decline and that wallet
    [originator] may cancel, any of these three calls made after another of
    them leaves the database that it leaves when made alone; in particular
    each of them may be repeated without effect. *)
Theorem last_trust_call_wins
        (types : TrustRelationship.enumeration) (b : bool)
        (target originator : Wallet) (db : DB) (r : TrustRelationship.row)
        (first second : Call) :
  trust_ids_unique db ->
  In r (entity_trust db) ->
  TrustRelationship.target_entity_id r = Some (_id target) ->
  TrustRelationship.originator_entity_id r = Some (_id originator) ->
  In first [CallAcceptTrust target (TrustRelationship.id r);
            CallDeclineTrust target (TrustRelationship.id r);
            CallCancelTrust originator (TrustRelationship.id r)] ->
  In second [CallAcceptTrust target (TrustRelationship.id r);
             CallDeclineTrust target (TrustRelationship.id r);
             CallCancelTrust originator (TrustRelationship.id r)] ->
  perform types b second (perform types b first db) = perform types b second db.
Proof.
  intros Hnd Hin Ht Ho H1 H2.
  destruct (trust_call_run types b target originator db r first Hnd Hin Ht Ho H1)
    as (s1 & Hfirst & _).
  destruct (trust_call_run types b target originator db r second Hnd Hin Ht Ho H2)
    as (s2 & Hsecond & Hany).
  rewrite Hfirst, Hsecond.
  rewrite (Hany (relationship_moved db r s1) (TrustRelationship.set_state s1 r)).
  - apply moved_twice.
  - unfold trust_ids_unique. rewrite TrustRepository_update_ids. exact Hnd.
  - unfold relationship_moved. simpl.
    apply (replaced_is_stored TrustRelationship.id _ r); [exact Hin | reflexivity].
  - reflexivity.
  - exact Ht.
  - exact Ho.
Qed.

Lemma last_trust_call_wins_witness :
  perform Sample.request_types true (CallAcceptTrust Sample.wallet2 1)
          (perform Sample.request_types true (CallCancelTrust Sample.wallet1 1)
                   (Sample.with_relationship TrustRelationship.requested))
  = Sample.with_relationship TrustRelationship.trusted.
Proof.
  rewrite (last_trust_call_wins Sample.request_types true Sample.wallet2 Sample.wallet1
             (Sample.with_relationship TrustRelationship.requested)
             (Sample.relationship TrustRelationship.requested)
             (CallCancelTrust Sample.wallet1 1) (CallAcceptTrust Sample.wallet2 1)
             (sample_trust_ids_unique _) (or_introl eq_refl) eq_refl eq_refl
             (or_intror (or_intror (or_introl eq_refl))) (or_introl eq_refl)).
  reflexivity.
Defined.

(** ** Methods that only read *)

(** X21: [authorize], [checkTrust], [hasControlOver], [toJSON] and the
    three queries of trust relationships never write: whatever they are
    given and whether they return or throw, the database is the same
    afterwards. *)
Theorem reading_methods_write_nothing
        (types : TrustRelationship.enumeration) (hmac : string -> string -> string)
        (this source target : Wallet) (password trustType : option string) (db : DB) :
  fst (Wallet.authorize hmac this password db) = db
  /\ fst (Wallet.checkTrust types this trustType source target db) = db
  /\ fst (Wallet.hasControlOver this source db) = db
  /\ fst (Wallet.toJSON this db) = db
  /\ fst (Wallet.getTrustRelationshipsRequested this db) = db
  /\ fst (Wallet.getTrustRelationshipsTargeted this db) = db
  /\ fst (Wallet.getTrustRelationshipsTrusted this db) = db.
Proof.
  assert (HtoJSON : fst (Wallet.toJSON this db) = db).
  { unfold Wallet.toJSON, WalletRepository.getById, BaseRepository.getById, bind, query.
    destruct (BaseRepository.first_with_id wallet_id (_id this) (wallet_table db));
      reflexivity. }
  repeat split; try apply checkTrust_reads_only; try exact HtoJSON; try reflexivity.
  - unfold Wallet.authorize. destruct password as [[|c rest]|]; try reflexivity.
    unfold bind. destruct (Wallet.toJSON this db) as [db' [w|e]]; simpl in *; subst db'.
    + destruct (negb (String.eqb _ _)); reflexivity.
    + reflexivity.
  - unfold Wallet.hasControlOver.
    destruct (Z.eqb (Wallet.getId source) (_id this)); reflexivity.
Qed.

(** ** Requests that succeed *)

(** X22: when a request succeeds.  For a request type of the enumeration
    and a name with a character that is no white space and that resolves to
    a wallet, the caller itself included, and when no relationship that the
    caller originated carries the request type in its column [type] with
    that wallet as target (these relationships having their target, and
    their [type] unless the assertion lets NULL pass), the request returns
    the relationship it has added to the table. *)
Theorem requestTrust_succeeds
        (types : TrustRelationship.enumeration) (b : bool) (this : Wallet)
        (requestType targetWalletName : string) (db : DB) (targetWallet : Wallet) :
  In requestType (TrustRelationship.Object_keys types) ->
  expect.test_nonspace targetWalletName = true ->
  WalletService.getByName targetWalletName db = (db, Return targetWallet) ->
  (forall r, In r (entity_trust db) ->
             TrustRelationship.originator_entity_id r = Some (_id this) ->
             (b = true \/ TrustRelationship.type r <> None)
             /\ TrustRelationship.target_entity_id r <> None
             /\ ~ (TrustRelationship.type r = Some requestType
                   /\ TrustRelationship.target_entity_id r
                      = Some (Wallet.getId targetWallet))) ->
  exists created,
    Wallet.requestTrustFromAWallet types b this requestType targetWalletName db
    = (with_entity_trust db (entity_trust db ++ [created]), Return (Some created))
    /\ created
       = TrustRepository.inserted_row
           (BaseRepository.next_id TrustRelationship.id (entity_trust db))
           (requested_object this requestType targetWallet).
Proof.
  intros Hkey Hname Hresolve Hrows.
  destruct (getByName_found _ _ _ _ Hresolve) as (w & Hw & ->).
  eexists. split; [|reflexivity].
  rewrite requestTrustFromAWallet_run.
  assert (existsb (String.eqb requestType) (TrustRelationship.Object_keys types) = true)
    as ->.
  { apply existsb_exists. exists requestType. split; [assumption | apply String.eqb_refl]. }
  rewrite Hname, Hw. simpl negb. cbv iota.
  rewrite already_requested_exists.
  2:{ intros r Hr. apply filter_In in Hr. destruct Hr as [Hin Ho].
      apply number_eq_true in Ho. destruct (Hrows r Hin Ho) as (H1 & H2 & _). auto. }
  match goal with |- context [existsb ?p ?l] => destruct (existsb p l) eqn:E end.
  - exfalso. apply existsb_exists in E. destruct E as (r & Hr & Hp).
    apply filter_In in Hr. destruct Hr as [Hin Ho].
    apply number_eq_true in Ho.
    apply andb_true_iff in Hp. destruct Hp as [Hty Htg].
    apply string_eq_true in Hty. apply number_eq_true in Htg.
    destruct (Hrows r Hin Ho) as (_ & _ & Hno). apply Hno. split; assumption.
  - apply create_run.
Qed.

Lemma requestTrust_succeeds_witness :
  exists created,
    Wallet.requestTrustFromAWallet Sample.request_types false Sample.wallet1
                                   "receive" "alice" Scenario.typed_relationship
    = (with_entity_trust Scenario.typed_relationship
         (entity_trust Scenario.typed_relationship ++ [created]),
       Return (Some created))
    /\ TrustRelationship.target_entity_id created = Some 1
    /\ TrustRelationship.originator_entity_id created = Some 1.
Proof.
  destruct (requestTrust_succeeds
              Sample.request_types false Sample.wallet1 "receive" "alice"
              Scenario.typed_relationship Sample.wallet1
              (or_intror (or_introl eq_refl)) eq_refl eq_refl)
    as (created & Hrun & ->).
  - intros r [<-|[]] _. simpl. split; [right; discriminate|].
    split; [discriminate|]. intros [H _]. discriminate H.
  - eexists. split; [exact Hrun|]. split; reflexivity.
Defined.

(** ** The last call on a transfer wins *)

Lemma transfer_moved_twice (db : DB) (t : Transfer.row) (s1 s2 : Transfer.STATE) :
  transfer_moved (transfer_moved db t s1) (Transfer.set_state s1 t) s2
  = transfer_moved db t s2.
Proof.
  unfold transfer_moved, with_transfer_table, BaseRepository.replace_by_id. simpl.
  f_equal. rewrite map_map. apply map_ext. intros x.
  destruct (Z.eqb (Transfer.id x) (Transfer.id t)) eqn:E; simpl.
  - rewrite Z.eqb_refl. reflexivity.
  - rewrite E. reflexivity.
Qed.

Lemma transfer_call_run (types : TrustRelationship.enumeration) (b : bool)
      (db : DB) (t : Transfer.row) (call : Call) :
  (exists this, In call [CallAcceptTransfer this (Transfer.id t);
                         CallDeclineTransfer this (Transfer.id t);
                         CallCancelTransfer this (Transfer.id t)]) ->
  exists s, forall db' t',
      transfer_ids_unique db' -> In t' (transfer_table db') ->
      Transfer.id t' = Transfer.id t ->
      perform types b call db' = transfer_moved db' t' s.
Proof.
  intros (this & [<-|[<-|[<-|[]]]]); simpl;
    [exists Transfer.completed | exists Transfer.cancelled | exists Transfer.cancelled];
    intros db' t' Hnd Hin <-;
    unfold Wallet.acceptTransfer, Wallet.declineTransfer, Wallet.cancelTransfer;
    rewrite (move_transfer db' t' _ Hnd Hin); reflexivity.
Qed.

(** X23: of two calls among [acceptTransfer], [declineTransfer] and
    [cancelTransfer] on the same transfer, by whatever wallets, the last one
    wins: made after the other it leaves the database that it leaves when
    made alone, so each may be repeated without effect and a decline undoes
    an accept. *)
Theorem last_transfer_call_wins
        (types : TrustRelationship.enumeration) (b : bool)
        (one other : Wallet) (db : DB) (t : Transfer.row) (first second : Call) :
  transfer_ids_unique db ->
  In t (transfer_table db) ->
  In first [CallAcceptTransfer one (Transfer.id t);
            CallDeclineTransfer one (Transfer.id t);
            CallCancelTransfer one (Transfer.id t)] ->
  In second [CallAcceptTransfer other (Transfer.id t);
             CallDeclineTransfer other (Transfer.id t);
             CallCancelTransfer other (Transfer.id t)] ->
  perform types b second (perform types b first db) = perform types b second db.
Proof.
  intros Hnd Hin H1 H2.
  destruct (transfer_call_run types b db t first (ex_intro _ one H1)) as (s1 & Hfirst).
  destruct (transfer_call_run types b db t second (ex_intro _ other H2)) as (s2 & Hsecond).
  rewrite (Hfirst db t Hnd Hin eq_refl), (Hsecond db t Hnd Hin eq_refl).
  rewrite (Hsecond (transfer_moved db t s1) (Transfer.set_state s1 t)).
  - apply transfer_moved_twice.
  - unfold transfer_ids_unique. rewrite TransferRepository_update_ids. exact Hnd.
  - unfold transfer_moved. simpl.
    apply (replaced_is_stored Transfer.id _ t); [exact Hin | reflexivity].
  - reflexivity.
Qed.

Lemma last_transfer_call_wins_witness :
  perform Sample.request_types true (CallDeclineTransfer Sample.wallet2 1)
          (perform Sample.request_types true (CallAcceptTransfer Sample.wallet3 1)
                   (Sample.with_transfer Transfer.pending))
  = Sample.with_transfer Transfer.cancelled.
Proof.
  rewrite (last_transfer_call_wins Sample.request_types true Sample.wallet3 Sample.wallet2
             (Sample.with_transfer Transfer.pending) (Sample.a_transfer Transfer.pending)
             (CallAcceptTransfer Sample.wallet3 1) (CallDeclineTransfer Sample.wallet2 1)
             (sample_transfer_ids_unique _) (sample_transfer_stored _)
             (or_introl eq_refl) (or_intror (or_introl eq_refl))).
  reflexivity.
Defined.
